(** * Task collection manager of the todo-list application

    A shallow embedding of the JavaScript sources
      - utils/constants.js   (APP_CONFIG, FILTER_TYPES, MESSAGES)
      - utils/helpers.js     (validateTodoText, generateId)
      - core/StorageManager.js (load, save, remove, clearAll, validateTodos)
      - core/ThemeManager.js (init, toggle, setTheme, the system listener)
      - ui/TodoRenderer.js   (filterTodos)
      - core/TodoApp.js      (the manager itself)
    followed by the properties of the manager that the specification
    states about it.

    Conventions of the embedding.
    - Times, indices and the ids that [generateId] computes are integers
      of [Z].  An id as a task carries it is a [number]: an integer, or one
      of the other numbers that a stored payload can hold (a finite number
      that is no integer, an infinity), since [validateTodos] asks of an id
      that it is a number and no more.
    - A JavaScript string is a [string] whose characters are the code units
      of the string, all below 256 (the Latin-1 range).  On that range
      [trim] and [toLowerCase] below are the ECMAScript functions.
    - [this.todos] is a [list Todo]; the methods of the class are state
      transformers that also log what they hand to the collaborators
      (storage, renderer, toasts, timers). *)

From Stdlib Require Import ZArith List String Ascii Bool Lia Permutation Sorted.
Import ListNotations.

Local Open Scope string_scope.
Local Open Scope list_scope.
Local Open Scope Z_scope.

(* ================================================================== *)
(** ** String primitives used by the sources *)

Module JsString.

(** WhiteSpace and LineTerminator code units below 256:
    TAB, LF, VT, FF, CR, SPACE and NO-BREAK SPACE. *)
Definition isWhiteSpace (c : ascii) : bool :=
  let n := N_of_ascii c in
  (((9 <=? n) && (n <=? 13)) || (n =? 32) || (n =? 160))%N.

Fixpoint trimStart (s : string) : string :=
  match s with
  | EmptyString => EmptyString
  | String c r => if isWhiteSpace c then trimStart r else s
  end.

Fixpoint trimEnd (s : string) : string :=
  match s with
  | EmptyString => EmptyString
  | String c r =>
      match trimEnd r with
      | EmptyString => if isWhiteSpace c then EmptyString else String c EmptyString
      | r' => String c r'
      end
  end.

(** [String.prototype.trim] *)
Definition trim (s : string) : string := trimEnd (trimStart s).

(** Lower-case mapping of one code unit: A-Z, and the capital letters
    U+00C0..U+00DE except the multiplication sign U+00D7. *)
Definition toLowerChar (c : ascii) : ascii :=
  let n := N_of_ascii c in
  if (((65 <=? n) && (n <=? 90))
      || ((192 <=? n) && (n <=? 222) && negb (n =? 215)))%N
  then ascii_of_N (n + 32)
  else c.

(** [String.prototype.toLowerCase] *)
Fixpoint toLowerCase (s : string) : string :=
  match s with
  | EmptyString => EmptyString
  | String c r => String (toLowerChar c) (toLowerCase r)
  end.

(** [s.includes(q)]: [q] occurs in [s] as a contiguous substring. *)
Fixpoint includes (s q : string) : bool :=
  if String.prefix q s then true
  else match s with
       | EmptyString => false
       | String _ r => includes r q
       end.

(** [s.length] *)
Definition length (s : string) : Z := Z.of_nat (String.length s).

End JsString.

(* ================================================================== *)
(** ** Numbers *)

(** The numbers that occur as ids: the integers that the application
    computes and the values that [JSON.parse] yields for a number.  A
    number is an integer, a finite number that is no integer, or an
    infinity (what [JSON.parse] makes of [1e999]).  A finite number that
    is no integer is written [below + 0.f] with [below] an integer and
    [0 < 0.f < 1], where the binary digits of the fraction [f], the last
    one first, are those of [digits] ([Fraction 1 1] is 1.5,
    [Fraction (-2) 2] is -1.75 = -2 + 0.25); each such number has one
    form.  Zero and minus zero are one number, as they are for [===].
    [NaN] is left out: no JSON text parses to it and the application
    computes none.  Range and precision are not bounded. *)
Inductive number : Type :=
| Int (z : Z)
| Fraction (below : Z) (digits : positive)
| Infinity
| NegInfinity.

Coercion Int : Z >-> number.

Module Number.

(** [x === y] on numbers. *)
Definition eqb (x y : number) : bool :=
  match x, y with
  | Int a, Int b => a =? b
  | Fraction a p, Fraction b q => (a =? b) && (p =? q)%positive
  | Infinity, Infinity => true
  | NegInfinity, NegInfinity => true
  | _, _ => false
  end.

(** [Number.isFinite(x)] *)
Definition isFinite (x : number) : bool :=
  match x with
  | Int _ => true
  | Fraction _ _ => true
  | Infinity => false
  | NegInfinity => false
  end.

End Number.

Notation "x === y" := (Number.eqb x y) (at level 70, no associativity).

(* ================================================================== *)
(** ** Array primitives used by the sources *)

Module JsArray.

Section Generic.
Context {A : Type}.

(** [arr.findIndex(p)]: index of the first element satisfying [p],
    or -1. *)
Fixpoint findIndex (p : A -> bool) (l : list A) : Z :=
  match l with
  | [] => -1
  | x :: r =>
      if p x then 0
      else let i := findIndex p r in
           if i =? -1 then -1 else i + 1
  end.

(** [arr[i]] for an integer index; [None] is [undefined]. *)
Definition at_index (l : list A) (i : Z) : option A :=
  if i <? 0 then None else nth_error l (Z.to_nat i).

(** [arr.splice(i, 1)] for [0 <= i]: the array without position [i]. *)
Definition splice1 (i : Z) (l : list A) : list A :=
  firstn (Z.to_nat i) l ++ skipn (S (Z.to_nat i)) l.

(** First element satisfying [p] replaced by its image under [f]:
    what [arr.find(p)] followed by a field assignment on the found
    object leaves in the array. *)
Fixpoint updateFirst (p : A -> bool) (f : A -> A) (l : list A) : list A :=
  match l with
  | [] => []
  | x :: r => if p x then f x :: r else x :: updateFirst p f r
  end.

(** [Array.prototype.sort(cmp)].  ECMAScript (2019 on) requires the
    sort to be stable; for a consistent comparator the result is then
    the one stably sorted arrangement of the array, whatever algorithm
    the engine runs.  It is computed here by insertion from the right:
    an element goes in front of the first one it does not compare
    greater than, so that equal elements keep their relative order. *)
Fixpoint insert (cmp : A -> A -> Z) (x : A) (l : list A) : list A :=
  match l with
  | [] => [x]
  | y :: r => if cmp x y <=? 0 then x :: y :: r else y :: insert cmp x r
  end.

Fixpoint sort (cmp : A -> A -> Z) (l : list A) : list A :=
  match l with
  | [] => []
  | x :: r => insert cmp x (sort cmp r)
  end.

End Generic.

(** [arr.indexOf(x)] on an array of numbers (strict equality). *)
Definition indexOf (l : list number) (x : number) : Z :=
  findIndex (Number.eqb x) l.

End JsArray.

(* ================================================================== *)
(** ** utils/constants.js *)

Module APP_CONFIG.
Definition STORAGE_KEY : string := "todos".
Definition FILTER_KEY : string := "filter".
Definition MAX_UNDO_TIME : Z := 5000.
Definition DARK_MODE_KEY : string := "darkMode".
End APP_CONFIG.

Module FILTER_TYPES.
Definition ALL : string := "all".
Definition ACTIVE : string := "active".
Definition COMPLETED : string := "completed".
(** [Object.values(FILTER_TYPES)] *)
Definition values : list string := [ALL; ACTIVE; COMPLETED].
End FILTER_TYPES.

Module MESSAGES.
(** The messages.  A message is only handed on to a toast; it is kept as
    the bytes of its text in the source file, pictograph included. *)
Definition TASK_ADDED : string := "New task added! ✨".
Definition TASK_DELETED : string := "Task deleted!".
Definition TASK_EDITED : string := "Task edited!".
Definition TASK_RESTORED : string := "Task restored!".
Definition TASKS_CLEARED : string := "Completed tasks cleared!".
Definition NO_COMPLETED : string := "No completed tasks!".
Definition NO_TASK_INPUT : string := "Please enter a task!".
End MESSAGES.

(* ================================================================== *)
(** ** utils/helpers.js *)

Module Helpers.

(** [validateTodoText(text)]: the argument is a string here, so the
    [typeof] test holds. *)
Definition validateTodoText (text : string) : bool :=
  JsString.length (JsString.trim text) >? 0.

(** [generateId()]: [now] is [Date.now()] and [jitter] is
    [Math.floor(Math.random() * 1000)], an integer from 0 to 999. *)
Definition generateId (now jitter : Z) : Z := now + jitter.

End Helpers.

(* ================================================================== *)
(** ** The task record *)

Record Todo : Type := mkTodo {
  id : number;
  text : string;
  completed : bool;
  createdAt : string
}.

Definition set_completed (b : bool) (t : Todo) : Todo :=
  mkTodo (id t) (text t) b (createdAt t).

Definition set_text (s : string) (t : Todo) : Todo :=
  mkTodo (id t) s (completed t) (createdAt t).

(* ================================================================== *)
(** ** core/StorageManager.js *)

Module StorageManager.

(** Values that [JSON.parse] produces. *)
#[local] Unset Elimination Schemes.
Inductive JSON : Type :=
| JNull
| JBool (b : bool)
| JNumber (n : number)
| JString (s : string)
| JArray (items : list JSON)
| JObject (props : list (string * JSON)).
#[local] Set Elimination Schemes.

(** What [localStorage.getItem(key)] followed by [JSON.parse] comes to:
    no item under the key, an exception (storage unavailable, or a text
    that does not parse), or a parsed value. *)
Inductive Item : Type :=
| ItemNull
| ItemThrows
| ItemValue (v : JSON).

Definition Storage : Type := string -> Item.

(** [StorageManager.load(key, defaultValue)] *)
Definition load (st : Storage) (key : string) (defaultValue : JSON) : JSON :=
  match st key with
  | ItemNull => defaultValue
  | ItemThrows => defaultValue
  | ItemValue v => v
  end.

Fixpoint lookup (k : string) (props : list (string * JSON)) : option JSON :=
  match props with
  | [] => None
  | (k', v) :: r => if String.eqb k k' then Some v else lookup k r
  end.

(** [v.k] for one of the four property names read by [validateTodos];
    [None] is [undefined] (arrays and primitives have no such property). *)
Definition getProp (v : JSON) (k : string) : option JSON :=
  match v with
  | JObject props => lookup k props
  | _ => None
  end.

(** [typeof v], with [None] for [undefined]. *)
Definition typeof (v : option JSON) : string :=
  match v with
  | None => "undefined"
  | Some JNull => "object"
  | Some (JBool _) => "boolean"
  | Some (JNumber _) => "number"
  | Some (JString _) => "string"
  | Some (JArray _) => "object"
  | Some (JObject _) => "object"
  end.

Definition isNull (v : JSON) : bool :=
  match v with JNull => true | _ => false end.

(** The predicate handed to [data.every] in [validateTodos]. *)
Definition validTodo (todo : JSON) : bool :=
  (typeof (Some todo) =? "object")%string
  && negb (isNull todo)
  && (typeof (getProp todo "id") =? "number")%string
  && (typeof (getProp todo "text") =? "string")%string
  && (typeof (getProp todo "completed") =? "boolean")%string
  && (typeof (getProp todo "createdAt") =? "string")%string.

(** [StorageManager.validateTodos(data)] *)
Definition validateTodos (data : JSON) : bool :=
  match data with
  | JArray items => forallb validTodo items
  | _ => false
  end.

(** The task that a stored object is, read through its four fields. *)
Definition asTodo (v : JSON) : option Todo :=
  match getProp v "id", getProp v "text",
        getProp v "completed", getProp v "createdAt" with
  | Some (JNumber i), Some (JString t), Some (JBool c), Some (JString d) =>
      Some (mkTodo i t c d)
  | _, _, _, _ => None
  end.

(** The tasks of a stored array (every element of an array accepted by
    [validateTodos] is one). *)
Fixpoint asTodos (items : list JSON) : list Todo :=
  match items with
  | [] => []
  | v :: r =>
      match asTodo v with
      | Some t => t :: asTodos r
      | None => asTodos r
      end
  end.

(** [JSON.parse(JSON.stringify(value))]: the text of a finite number
    parses back to that number, an infinity is written as [null], and
    arrays and objects are written element by element. *)
Fixpoint reparse (value : JSON) : JSON :=
  match value with
  | JNumber n => if Number.isFinite n then JNumber n else JNull
  | JArray items => JArray (map reparse items)
  | JObject props =>
      JObject
        (map (fun kv => match kv with (k, v) => (k, reparse v) end) props)
  | _ => value
  end.

(** Writing.  An item is kept as the value that [JSON.parse] reads back
    from it: [localStorage.setItem(key, JSON.stringify(value))] leaves
    [reparse value] under the key. *)
Definition setItem (st : Storage) (key : string) (value : JSON) : Storage :=
  fun k => if (k =? key)%string then ItemValue (reparse value) else st k.

Definition removeItem (st : Storage) (key : string) : Storage :=
  fun k => if (k =? key)%string then ItemNull else st k.

(** [StorageManager.save(key, value)]; [throws] tells whether the write
    raises (storage full or disabled), which [save] turns into [false]. *)
Definition save (throws : bool) (st : Storage) (key : string) (value : JSON)
  : Storage * bool :=
  if throws then (st, false) else (setItem st key value, true).

(** [StorageManager.remove(key)] *)
Definition remove (throws : bool) (st : Storage) (key : string)
  : Storage * bool :=
  if throws then (st, false) else (removeItem st key, true).

(** [StorageManager.clearAll()]: three removals in one [try].
    [throwsAt] is the place (0, 1 or 2) of the removal that throws, if
    one does; the removals before it have been made. *)
Definition clearAll (throwsAt : option nat) (st : Storage) : Storage * bool :=
  match throwsAt with
  | Some O => (st, false)
  | Some (S O) => (removeItem st APP_CONFIG.STORAGE_KEY, false)
  | Some (S (S O)) =>
      (removeItem (removeItem st APP_CONFIG.STORAGE_KEY)
         APP_CONFIG.DARK_MODE_KEY, false)
  | _ =>
      (removeItem
         (removeItem (removeItem st APP_CONFIG.STORAGE_KEY)
            APP_CONFIG.DARK_MODE_KEY)
         APP_CONFIG.FILTER_KEY, true)
  end.

(** A task object as a value, with its four properties in the order in
    which [addTodo] writes them. *)
Definition todoJSON (t : Todo) : JSON :=
  JObject [("id", JNumber (id t)); ("text", JString (text t));
           ("completed", JBool (completed t));
           ("createdAt", JString (createdAt t))].

End StorageManager.

(* ================================================================== *)
(** ** ui/TodoRenderer.js *)

Module TodoRenderer.

(** [TodoRenderer.filterTodos(todos, filter, searchQuery)] *)
Definition filterTodos (todos : list Todo) (filter searchQuery : string)
  : list Todo :=
  let filtered := todos in
  let filtered :=
    if negb (JsString.trim searchQuery =? "")%string then
      let query := JsString.toLowerCase searchQuery in
      List.filter
        (fun todo => JsString.includes (JsString.toLowerCase (text todo)) query)
        filtered
    else filtered in
  if (filter =? "active")%string then
    List.filter (fun todo => negb (completed todo)) filtered
  else if (filter =? "completed")%string then
    List.filter (fun todo => completed todo) filtered
  else filtered.

End TodoRenderer.

(* ================================================================== *)
(** ** core/TodoApp.js *)

Module TodoApp.

(** The instance fields that make the state of the manager. *)
Record State : Type := mkState {
  todos : list Todo;
  filter : string;
  searchQuery : string;
  deletedTodo : option Todo;
  deletedTime : option Z
}.

Inductive ToastType : Type := success | danger | warning | info.

(** What a method hands to its collaborators, in the order of the calls. *)
Inductive Effect : Type :=
| SaveTodos (value : list Todo)
| SaveFilter (value : string)
| Render (visible : list Todo)
| Toast (type : ToastType) (message : string)
| SetTimeout (delay : Z).

(** A method: from the state before to a result, the state after and the
    effects of the call. *)
Definition App (A : Type) : Type := State -> A * State * list Effect.

Definition ret {A : Type} (a : A) : App A := fun s => (a, s, []).

Definition bind {A B : Type} (m : App A) (k : A -> App B) : App B :=
  fun s =>
    let '(a, s1, e1) := m s in
    let '(b, s2, e2) := k a s1 in
    (b, s2, e1 ++ e2).

Declare Scope app_scope.
Delimit Scope app_scope with app.
Notation "x <- m ;; k" := (bind m (fun x => k))
  (at level 61, m at next level, right associativity) : app_scope.
Notation "m ;; k" := (bind m (fun _ => k))
  (at level 61, right associativity) : app_scope.
Local Open Scope app_scope.

Definition get : App State := fun s => (s, s, []).
Definition modify (f : State -> State) : App unit := fun s => (tt, f s, []).
Definition emit (e : Effect) : App unit := fun s => (tt, s, [e]).

(** State after a method, and its effects. *)
Definition exec {A : Type} (m : App A) (s : State) : State := snd (fst (m s)).
Definition effects {A : Type} (m : App A) (s : State) : list Effect := snd (m s).

Definition set_todos (l : list Todo) (s : State) : State :=
  mkState l (filter s) (searchQuery s) (deletedTodo s) (deletedTime s).

Definition set_filter (f : string) (s : State) : State :=
  mkState (todos s) f (searchQuery s) (deletedTodo s) (deletedTime s).

Definition set_searchQuery (q : string) (s : State) : State :=
  mkState (todos s) (filter s) q (deletedTodo s) (deletedTime s).

Definition set_deleted (t : option Todo) (time : option Z) (s : State) : State :=
  mkState (todos s) (filter s) (searchQuery s) t time.

(** The fields as the constructor sets them. *)
Definition constructor : State :=
  mkState [] FILTER_TYPES.ALL "" None None.

(** [saveToStorage()] *)
Definition saveToStorage : App unit :=
  s <- get ;; emit (SaveTodos (todos s)).

(** [saveFilter()] *)
Definition saveFilter : App unit :=
  s <- get ;; emit (SaveFilter (filter s)).

(** [render()]: the renderer receives the three fields and shows
    [filterTodos] of them. *)
Definition render : App unit :=
  s <- get ;;
  emit (Render (TodoRenderer.filterTodos (todos s) (filter s) (searchQuery s))).

(** [addTodo(text)]; [now], [jitter] are read by [generateId()] and [iso]
    is [new Date().toISOString()]. *)
Definition addTodo (text : string) (now jitter : Z) (iso : string) : App unit :=
  let newTodo := mkTodo (Helpers.generateId now jitter) text false iso in
  modify (fun s => set_todos (todos s ++ [newTodo]) s) ;;
  saveToStorage ;;
  render ;;
  emit (Toast success MESSAGES.TASK_ADDED).

(** [handleAddTodo()]; [inputValue] is the value of the input element. *)
Definition handleAddTodo (inputValue : string) (now jitter : Z) (iso : string)
  : App unit :=
  let text := JsString.trim inputValue in
  if negb (Helpers.validateTodoText text) then
    emit (Toast warning MESSAGES.NO_TASK_INPUT)
  else
    addTodo text now jitter iso.

(** [toggleTodo(id)] *)
Definition toggleTodo (i : number) : App unit :=
  s <- get ;;
  match find (fun t => id t === i) (todos s) with
  | Some _ =>
      modify (set_todos
                (JsArray.updateFirst (fun t => id t === i)
                   (fun todo => set_completed (negb (completed todo)) todo)
                   (todos s))) ;;
      saveToStorage ;;
      render
  | None => ret tt
  end.

(** [editTodo(id)]; [answer] is what [prompt] returns when it is shown
    ([None] for [null]). *)
Definition editTodo (i : number) (answer : option string) : App unit :=
  s <- get ;;
  match find (fun t => id t === i) (todos s) with
  | None => ret tt
  | Some _ =>
      match answer with
      | Some newText =>
          if Helpers.validateTodoText newText then
            modify (set_todos
                      (JsArray.updateFirst (fun t => id t === i)
                         (set_text (JsString.trim newText))
                         (todos s))) ;;
            saveToStorage ;;
            render ;;
            emit (Toast success MESSAGES.TASK_EDITED)
          else ret tt
      | None => ret tt
      end
  end.

(** [setupUndo()]: schedules the undo callback, 1000 ms from now. *)
Definition setupUndo : App unit := emit (SetTimeout 1000).

(** [deleteTodo(id)]; [now] is [Date.now()]. *)
Definition deleteTodo (i : number) (now : Z) : App unit :=
  s <- get ;;
  let todoIndex := JsArray.findIndex (fun t => id t === i) (todos s) in
  if todoIndex =? -1 then ret tt
  else
    modify (set_deleted (JsArray.at_index (todos s) todoIndex) (Some now)) ;;
    modify (fun s => set_todos (JsArray.splice1 todoIndex (todos s)) s) ;;
    saveToStorage ;;
    render ;;
    emit (Toast danger MESSAGES.TASK_DELETED) ;;
    setupUndo.

(** [Date.now() - this.deletedTime]: [null] converts to 0. *)
Definition toNumber (t : option Z) : Z :=
  match t with Some z => z | None => 0 end.

(** The callback that [setupUndo] schedules.  [confirmed] is the answer to
    [confirm(MESSAGES.CONFIRM_RESTORE)] and [now] the [Date.now()] read
    after it.  The result is [None] when the callback would push [null]
    into the array (an empty slot with [now] below the window length):
    the array is then no list of tasks and [render] throws. *)
Definition undoCallback (confirmed : bool) (now : Z) (s : State)
  : option (unit * State * list Effect) :=
  if confirmed && (now - toNumber (deletedTime s) <? APP_CONFIG.MAX_UNDO_TIME)
  then
    match deletedTodo s with
    | Some t =>
        Some ((modify (fun s => set_todos (todos s ++ [t]) s) ;;
               saveToStorage ;;
               render ;;
               emit (Toast success MESSAGES.TASK_RESTORED) ;;
               modify (set_deleted None None)) s)
    | None => None
    end
  else Some (modify (set_deleted None None) s).

(** [clearCompleted()]; [confirmed] is the answer to the confirmation
    when it is asked. *)
Definition clearCompleted (confirmed : bool) : App unit :=
  s <- get ;;
  let completedCount :=
    List.length (List.filter (fun t => completed t) (todos s)) in
  if Nat.eqb completedCount 0 then emit (Toast info MESSAGES.NO_COMPLETED)
  else if confirmed then
    modify (set_todos (List.filter (fun t => negb (completed t)) (todos s))) ;;
    saveToStorage ;;
    render ;;
    emit (Toast success MESSAGES.TASKS_CLEARED)
  else ret tt.

(** [reorderTodos(orderedIds)] *)
Definition reorderTodos (orderedIds : list number) : App unit :=
  modify (fun s =>
            set_todos
              (JsArray.sort
                 (fun a b => JsArray.indexOf orderedIds (id a)
                             - JsArray.indexOf orderedIds (id b))
                 (todos s)) s) ;;
  saveToStorage.

(** [loadFromStorage()] *)
Definition loadFromStorage (st : StorageManager.Storage) : App unit :=
  let savedTodos :=
    StorageManager.load st APP_CONFIG.STORAGE_KEY (StorageManager.JArray []) in
  (if StorageManager.validateTodos savedTodos then
     match savedTodos with
     | StorageManager.JArray items =>
         modify (set_todos (StorageManager.asTodos items))
     | _ => ret tt
     end
   else ret tt) ;;
  let savedFilter :=
    StorageManager.load st APP_CONFIG.FILTER_KEY StorageManager.JNull in
  match savedFilter with
  | StorageManager.JString f =>
      if existsb (String.eqb f) FILTER_TYPES.values
      then modify (set_filter f) else ret tt
  | _ => ret tt
  end.

(** [new TodoApp()]: the constructor's fields, then [init()], which loads
    from storage and renders. *)
Definition new (st : StorageManager.Storage) : State * list Effect :=
  let '(_, s, e) := (loadFromStorage st ;; render) constructor in (s, e).

(** The click on a filter button and the input of the search field. *)
Definition setFilter (f : string) : App unit :=
  modify (set_filter f) ;; saveFilter ;; render.

Definition setSearchQuery (q : string) : App unit :=
  modify (set_searchQuery q) ;; render.

(** The user gestures and timer events that drive the manager. *)
Inductive Action : Type :=
| HandleAddTodo (inputValue : string) (now jitter : Z) (iso : string)
| ToggleTodo (i : number)
| EditTodo (i : number) (answer : option string)
| DeleteTodo (i : number) (now : Z)
| UndoCallback (confirmed : bool) (now : Z)
| ClearCompleted (confirmed : bool)
| ReorderTodos (orderedIds : list number)
| SetFilter (f : string)
| SetSearchQuery (q : string).

Definition step (a : Action) (s : State) : option State :=
  match a with
  | HandleAddTodo v now jitter iso => Some (exec (handleAddTodo v now jitter iso) s)
  | ToggleTodo i => Some (exec (toggleTodo i) s)
  | EditTodo i answer => Some (exec (editTodo i answer) s)
  | DeleteTodo i now => Some (exec (deleteTodo i now) s)
  | UndoCallback c now =>
      match undoCallback c now s with
      | Some r => Some (snd (fst r))
      | None => None
      end
  | ClearCompleted c => Some (exec (clearCompleted c) s)
  | ReorderTodos ids => Some (exec (reorderTodos ids) s)
  | SetFilter f => Some (exec (setFilter f) s)
  | SetSearchQuery q => Some (exec (setSearchQuery q) s)
  end.

Fixpoint run (actions : list Action) (s : State) : option State :=
  match actions with
  | [] => Some s
  | a :: r =>
      match step a s with
      | Some s' => run r s'
      | None => None
      end
  end.

(** [updateTaskCount()]: the number shown as remaining, and whether the
    button that clears the completed tasks is disabled. *)
Definition updateTaskCount (s : State) : nat * bool :=
  let activeCount :=
    List.length (List.filter (fun t => negb (completed t)) (todos s)) in
  let hasCompleted := existsb (fun t => completed t) (todos s) in
  (activeCount, negb hasCompleted).

(** [closeSearchBar()]: the query is emptied, the list rendered, and a
    timer set that moves the focus to the input. *)
Definition closeSearchBar : App unit :=
  modify (set_searchQuery "") ;; render ;; emit (SetTimeout 300).

(** An action with its effects. *)
Definition perform (a : Action) (s : State) : option (State * list Effect) :=
  let run1 (m : App unit) := Some (exec m s, effects m s) in
  match a with
  | HandleAddTodo v now jitter iso => run1 (handleAddTodo v now jitter iso)
  | ToggleTodo i => run1 (toggleTodo i)
  | EditTodo i answer => run1 (editTodo i answer)
  | DeleteTodo i now => run1 (deleteTodo i now)
  | UndoCallback c now =>
      match undoCallback c now s with
      | Some r => Some (snd (fst r), snd r)
      | None => None
      end
  | ClearCompleted c => run1 (clearCompleted c)
  | ReorderTodos ids => run1 (reorderTodos ids)
  | SetFilter f => run1 (setFilter f)
  | SetSearchQuery q => run1 (setSearchQuery q)
  end.

(** What the saves among the effects of a method leave in storage;
    [throws] as for [StorageManager.save]. *)
Definition storeEffect (throws : bool) (x : Effect)
  (st : StorageManager.Storage) : StorageManager.Storage :=
  match x with
  | SaveTodos l =>
      fst (StorageManager.save throws st APP_CONFIG.STORAGE_KEY
             (StorageManager.JArray (map StorageManager.todoJSON l)))
  | SaveFilter f =>
      fst (StorageManager.save throws st APP_CONFIG.FILTER_KEY
             (StorageManager.JString f))
  | _ => st
  end.

Fixpoint store (throws : bool) (e : list Effect) (st : StorageManager.Storage)
  : StorageManager.Storage :=
  match e with
  | [] => st
  | x :: r => store throws r (storeEffect throws x st)
  end.

(** A session: the actions in turn, each saving into the storage. *)
Fixpoint session (throws : bool) (actions : list Action) (s : State)
  (st : StorageManager.Storage) : option (State * StorageManager.Storage) :=
  match actions with
  | [] => Some (s, st)
  | a :: r =>
      match perform a s with
      | Some (s', e) => session throws r s' (store throws e st)
      | None => None
      end
  end.

End TodoApp.

(* ================================================================== *)
(** ** core/ThemeManager.js *)

Module ThemeManager.
Import StorageManager.

(** A value of a field: a JSON value, or [None] for [undefined]. *)
Definition Value : Type := option JSON.

(** Truthiness, as [!v] and [if (v)] see it. *)
Definition truthy (v : Value) : bool :=
  match v with
  | None => false
  | Some JNull => false
  | Some (JBool b) => b
  | Some (JNumber n) => negb (n === 0)
  | Some (JString s) => negb (s =? "")%string
  | Some (JArray _) => true
  | Some (JObject _) => true
  end.

Record State : Type := mkTheme { isDarkMode : Value }.

(** [getOSPreference()]; [os] is [None] when [window.matchMedia] is
    missing and else the [matches] of the dark-scheme query. *)
Definition getOSPreference (os : option bool) : Value :=
  match os with
  | None => None
  | Some b => Some (JBool b)
  end.

(** [new ThemeManager()]: the saved preference when there is one, whatever
    its type, and else the preference of the system. *)
Definition init (st : Storage) (os : option bool) : State :=
  match load st APP_CONFIG.DARK_MODE_KEY JNull with
  | JNull => mkTheme (getOSPreference os)
  | savedTheme => mkTheme (Some savedTheme)
  end.

(** [applyTheme()]: whether the document carries [data-theme="dark"]. *)
Definition applyTheme (s : State) : bool := truthy (isDarkMode s).

(** [toggle()]: the new state, the storage after [savePreference()], and
    the value returned. *)
Definition toggle (throws : bool) (s : State) (st : Storage)
  : State * Storage * Value :=
  let v := Some (JBool (negb (truthy (isDarkMode s)))) in
  (mkTheme v,
   fst (save throws st APP_CONFIG.DARK_MODE_KEY
          (JBool (negb (truthy (isDarkMode s))))),
   v).

(** [setTheme(isDark)] for a boolean argument. *)
Definition setTheme (throws : bool) (isDark : bool) (st : Storage)
  : State * Storage :=
  (mkTheme (Some (JBool isDark)),
   fst (save throws st APP_CONFIG.DARK_MODE_KEY (JBool isDark))).

(** The listener of [listenForOSChanges()], on a change to [matches]. *)
Definition osChanged (matches : bool) (s : State) (st : Storage) : State :=
  match load st APP_CONFIG.DARK_MODE_KEY JNull with
  | JNull => mkTheme (Some (JBool matches))
  | _ => s
  end.

End ThemeManager.

(* ================================================================== *)
(** ** Vocabulary of the properties *)

(** A comparator that subtracts keys, and the order it sorts by. *)
Definition byKey {A : Type} (key : A -> Z) (a b : A) : Z := key a - key b.

Definition keyLe {A : Type} (key : A -> Z) (a b : A) : Prop := key a <= key b.

(** The key of [reorderTodos]: where the id of a task is in [orderedIds],
    -1 when it is not there. *)
Definition position (orderedIds : list number) (t : Todo) : Z :=
  JsArray.indexOf orderedIds (id t).

(** A task is recognized by [orderedIds] when its id occurs there. *)
Definition recognized (orderedIds : list number) (t : Todo) : bool :=
  existsb (Number.eqb (id t)) orderedIds.

(* ================================================================== *)
(** ** The specification's wording of some operations

    Used only to compare the code with: each definition follows the
    sentence of the specification quoted above it. *)

Module Spec.

(** "case-insensitive substring match of the (trimmed) search query
    against [text] (vacuously true if query is empty)" *)
Definition matchesSearch (searchQuery : string) (t : Todo) : bool :=
  let q := JsString.trim searchQuery in
  (q =? "")%string
  || JsString.includes (JsString.toLowerCase (text t)) (JsString.toLowerCase q).

(** "filter predicate (all -> true, active -> !completed,
    completed -> completed)" *)
Definition matchesFilter (filter : string) (t : Todo) : bool :=
  if (filter =? "active")%string then negb (completed t)
  else if (filter =? "completed")%string then completed t
  else true.

(** "Returns tasks matching: ... AND ... Preserves Collection order." *)
Definition visibleTasks (todos : list Todo) (filter searchQuery : string)
  : list Todo :=
  List.filter (fun t => matchesSearch searchQuery t && matchesFilter filter t)
    todos.

(** "re-sorts the Collection to match; any id in the Collection not
    present in orderedIds keeps its relative position appended after the
    recognized ones" *)
Definition reorder (orderedIds : list number) (todos : list Todo)
  : list Todo :=
  JsArray.sort
    (fun a b => JsArray.indexOf orderedIds (id a)
                - JsArray.indexOf orderedIds (id b))
    (List.filter (recognized orderedIds) todos)
  ++ List.filter (fun t => negb (recognized orderedIds t)) todos.

(** "data must be a sequence; every element must carry id (integer),
    text (string), completed (boolean), createdAt (string)" *)
Definition carriesTask (v : StorageManager.JSON) : bool :=
  match StorageManager.getProp v "id", StorageManager.getProp v "text",
        StorageManager.getProp v "completed",
        StorageManager.getProp v "createdAt" with
  | Some (StorageManager.JNumber (Int _)), Some (StorageManager.JString _),
    Some (StorageManager.JBool _), Some (StorageManager.JString _) => true
  | _, _, _, _ => false
  end.

Definition validateCollection (data : StorageManager.JSON) : bool :=
  match data with
  | StorageManager.JArray items => forallb carriesTask items
  | _ => false
  end.

(** "the latter two report NotFound": an outcome that reaches the caller.
    The methods return nothing, so that what they report is what they show
    in a toast. *)
Definition reports (e : list TodoApp.Effect) : bool :=
  existsb (fun x => match x with TodoApp.Toast _ _ => true | _ => false end) e.

End Spec.

(** The tasks the manager holds: the collection and the task in the undo
    slot, which the undo callback may push back. *)
Definition held (s : TodoApp.State) : list Todo :=
  TodoApp.todos s
  ++ match TodoApp.deletedTodo s with Some t => [t] | None => [] end.

(** No two tasks held by the manager carry one id. *)
Definition idsUnique (s : TodoApp.State) : Prop := NoDup (map id (held s)).

(** An action creates no id that is already held: only an accepted add
    creates an id. *)
Definition freshAt (a : TodoApp.Action) (s : TodoApp.State) : Prop :=
  match a with
  | TodoApp.HandleAddTodo v now jitter _ =>
      Helpers.validateTodoText (JsString.trim v) = true ->
      ~ In (Int (Helpers.generateId now jitter)) (map id (held s))
  | _ => True
  end.

(** Every action of a run is fresh where it is taken. *)
Fixpoint freshAlong (actions : list TodoApp.Action) (s : TodoApp.State) : Prop :=
  match actions with
  | [] => True
  | a :: r =>
      freshAt a s
      /\ match TodoApp.step a s with
         | Some s' => freshAlong r s'
         | None => True
         end
  end.

(** The tasks shown for a state. *)
Definition visible (s : TodoApp.State) : list Todo :=
  TodoRenderer.filterTodos (TodoApp.todos s) (TodoApp.filter s)
    (TodoApp.searchQuery s).

(** The collection handed to the last save of the tasks among some
    effects, and the list handed to the last render. *)
Fixpoint lastSaveTodos (e : list TodoApp.Effect) : option (list Todo) :=
  match e with
  | [] => None
  | x :: r =>
      match lastSaveTodos r with
      | Some l => Some l
      | None => match x with TodoApp.SaveTodos l => Some l | _ => None end
      end
  end.

Fixpoint lastRender (e : list TodoApp.Effect) : option (list Todo) :=
  match e with
  | [] => None
  | x :: r =>
      match lastRender r with
      | Some l => Some l
      | None => match x with TodoApp.Render l => Some l | _ => None end
      end
  end.

(** A text as [handleAddTodo] and [editTodo] store it: trimmed, not
    empty. *)
Definition textStored (t : Todo) : Prop :=
  JsString.trim (text t) = text t /\ text t <> "".

(** A string has a character that is no white space. *)
Definition hasInk (s : string) : Prop :=
  exists c, In c (list_ascii_of_string s) /\ JsString.isWhiteSpace c = false.

(** The adds of a run are at least a second apart, after [last] and one
    after the other, each with a jitter that [generateId] can draw. *)
Fixpoint spacedAdds (last : Z) (actions : list TodoApp.Action) : Prop :=
  match actions with
  | [] => True
  | TodoApp.HandleAddTodo _ now jitter _ :: r =>
      last + 1000 <= now /\ 0 <= jitter < 1000 /\ spacedAdds now r
  | _ :: r => spacedAdds last r
  end.

(** Every task of a list has a finite id. *)
Definition finiteIds (l : list Todo) : Prop :=
  Forall (fun t => Number.isFinite (id t) = true) l.

(** The filter that [loadFromStorage] would restore for a stored name. *)
Definition restoredFilter (f : string) : string :=
  if existsb (String.eqb f) FILTER_TYPES.values then f else FILTER_TYPES.ALL.

(** The search predicate as [filterTodos] applies it: the query is trimmed
    to decide whether a search is on, and matched as it was typed. *)
Definition matchesSearch (searchQuery : string) (t : Todo) : bool :=
  (JsString.trim searchQuery =? "")%string
  || JsString.includes (JsString.toLowerCase (text t))
       (JsString.toLowerCase searchQuery).

(** The completion predicate that the [switch] of [filterTodos] applies:
    any filter other than the two named ones lets every task through. *)
Definition matchesFilter (filter : string) (t : Todo) : bool :=
  if (filter =? "active")%string then negb (completed t)
  else if (filter =? "completed")%string then completed t
  else true.

(** Sublists: the elements of the first list occur in the second, in the
    same order. *)
Inductive sublist {A : Type} : list A -> list A -> Prop :=
| sublist_nil : sublist [] []
| sublist_skip : forall x l1 l2, sublist l1 l2 -> sublist l1 (x :: l2)
| sublist_keep : forall x l1 l2, sublist l1 l2 -> sublist (x :: l1) (x :: l2).

(* ================================================================== *)
(** * Properties *)

(** ** Numbers *)

Section NumberFacts.

Lemma number_eqb_eq (x y : number) : (x === y) = true <-> x = y.
Proof.
  destruct x as [a|a p| |], y as [b|b q| |]; cbn;
    try (split; [discriminate|intros E; discriminate E]);
    try (split; reflexivity).
  - rewrite Z.eqb_eq. split; [now intros ->|now intros [= ->]].
  - rewrite andb_true_iff, Z.eqb_eq, Pos.eqb_eq.
    split; [now intros [-> ->]|now intros [= -> ->]].
Qed.

Lemma number_eqb_refl (x : number) : (x === x) = true.
Proof. now apply number_eqb_eq. Qed.

Lemma number_eqb_neq (x y : number) : (x === y) = false <-> x <> y.
Proof.
  rewrite <- number_eqb_eq. destruct (x === y); split; congruence.
Qed.

Lemma number_eq_dec (x y : number) : {x = y} + {x <> y}.
Proof.
  destruct (x === y) eqn:E; [left; now apply number_eqb_eq|right].
  now apply number_eqb_neq.
Qed.

End NumberFacts.

(** ** Strings *)

Section StringFacts.
Import JsString.

Example trim_both_ends : trim "  Buy Milk " = "Buy Milk".
Proof. reflexivity. Qed.

Example trim_blank : trim "   " = "" /\ trim "" = "".
Proof. split; reflexivity. Qed.

Example toLowerCase_mixed : toLowerCase "Buy Milk" = "buy milk".
Proof. reflexivity. Qed.

Example includes_inner :
  includes "buy milk" "milk" = true /\ includes "buy milk" "milk " = false
  /\ includes "buy milk" "" = true.
Proof. repeat split; reflexivity. Qed.

Lemma trimEnd_unfold (c : ascii) (r : string) :
  trimEnd (String c r) =
  match trimEnd r with
  | EmptyString => if isWhiteSpace c then EmptyString else String c EmptyString
  | r' => String c r'
  end.
Proof. reflexivity. Qed.

Lemma trimEnd_idempotent (s : string) : trimEnd (trimEnd s) = trimEnd s.
Proof.
  induction s as [|c r IH]; [reflexivity|].
  rewrite trimEnd_unfold.
  destruct (trimEnd r) as [|c' r'] eqn:E.
  - destruct (isWhiteSpace c) eqn:W; [reflexivity|].
    simpl. rewrite W. reflexivity.
  - rewrite trimEnd_unfold, IH. reflexivity.
Qed.

Lemma trimEnd_cons (c : ascii) (r : string) :
  isWhiteSpace c = false -> trimEnd (String c r) = String c (trimEnd r).
Proof.
  intros W. simpl. rewrite W. destruct (trimEnd r); reflexivity.
Qed.

Lemma trimStart_shape (s : string) :
  trimStart s = EmptyString
  \/ exists c r, trimStart s = String c r /\ isWhiteSpace c = false.
Proof.
  induction s as [|c r IH]; simpl; [now left|].
  destruct (isWhiteSpace c) eqn:W; [exact IH|].
  right. exists c, r. split; [reflexivity|exact W].
Qed.

Lemma trim_idempotent (s : string) : trim (trim s) = trim s.
Proof.
  unfold trim. destruct (trimStart_shape s) as [E | (c & r & E & W)]; rewrite E.
  - reflexivity.
  - rewrite (trimEnd_cons c r W). simpl trimStart. rewrite W.
    rewrite (trimEnd_cons c _ W), trimEnd_idempotent. reflexivity.
Qed.

Lemma validateTodoText_spec (s : string) :
  Helpers.validateTodoText s = true <-> trim s <> EmptyString.
Proof.
  unfold Helpers.validateTodoText, JsString.length.
  destruct (trim s) as [|c r]; simpl.
  - split; [discriminate|congruence].
  - split; [discriminate|]. intros _. apply Z.gtb_lt. lia.
Qed.

Lemma validateTodoText_trim (s : string) :
  Helpers.validateTodoText (trim s) = Helpers.validateTodoText s.
Proof.
  unfold Helpers.validateTodoText. rewrite trim_idempotent. reflexivity.
Qed.

End StringFacts.

(** ** Arrays: searching *)

Section FindFacts.
Import JsArray.
Context {A : Type}.
Implicit Types (p : A -> bool) (l : list A).

Lemma findIndex_lower p l : -1 <= findIndex p l.
Proof.
  induction l as [|x r IH]; simpl; [lia|].
  destruct (p x); [lia|].
  destruct (Z.eqb_spec (findIndex p r) (-1)); lia.
Qed.

Lemma findIndex_absent p l :
  findIndex p l = -1 <-> (forall x, In x l -> p x = false).
Proof.
  induction l as [|x r IH]; simpl.
  - split; [intros _ y []|reflexivity].
  - destruct (p x) eqn:Px.
    + split; [discriminate|]. intros H. specialize (H x (or_introl eq_refl)).
      congruence.
    + pose proof (findIndex_lower p r) as Hlow.
      destruct (Z.eqb_spec (findIndex p r) (-1)) as [E|E].
      * split; [|reflexivity]. intros _ y [<-|Hy]; [exact Px|].
        now apply IH.
      * split; [lia|]. intros H. exfalso. apply E, IH.
        intros y Hy. apply H. now right.
Qed.

Lemma find_absent p l :
  find p l = None <-> (forall x, In x l -> p x = false).
Proof.
  split.
  - intros H x Hx. exact (find_none p l H x Hx).
  - induction l as [|x r IH]; simpl; [reflexivity|].
    intros H. rewrite (H x (or_introl eq_refl)). apply IH.
    intros y Hy. apply H. now right.
Qed.

Lemma findIndex_existsb p l : findIndex p l = -1 <-> existsb p l = false.
Proof.
  rewrite findIndex_absent. split.
  - intros H. destruct (existsb p l) eqn:E; [|reflexivity].
    apply existsb_exists in E. destruct E as (x & Hx & Px).
    rewrite (H x Hx) in Px. discriminate.
  - intros H x Hx. destruct (p x) eqn:Px; [|reflexivity].
    assert (existsb p l = true) by (apply existsb_exists; eauto). congruence.
Qed.

(** A successful [findIndex] splits the array at the first match. *)
Lemma findIndex_present p l :
  findIndex p l <> -1 ->
  exists l1 x l2,
    l = l1 ++ x :: l2 /\ p x = true /\ (forall y, In y l1 -> p y = false)
    /\ findIndex p l = Z.of_nat (List.length l1).
Proof.
  induction l as [|x r IH]; simpl; [congruence|].
  destruct (p x) eqn:Px.
  - intros _. exists [], x, r. repeat split; auto. intros y [].
  - destruct (Z.eqb_spec (findIndex p r) (-1)) as [E|E]; [congruence|].
    intros _. destruct (IH E) as (l1 & y & l2 & -> & Py & Hl1 & Hi).
    exists (x :: l1), y, l2. repeat split; auto.
    + intros z [<-|Hz]; auto.
    + rewrite Hi. simpl List.length. lia.
Qed.

Lemma at_index_middle l1 (x : A) l2 :
  at_index (l1 ++ x :: l2) (Z.of_nat (List.length l1)) = Some x.
Proof.
  unfold at_index. destruct (Z.ltb_spec (Z.of_nat (List.length l1)) 0); [lia|].
  rewrite Nat2Z.id, nth_error_app2 by lia. rewrite Nat.sub_diag. reflexivity.
Qed.

Lemma splice1_middle l1 (x : A) l2 :
  splice1 (Z.of_nat (List.length l1)) (l1 ++ x :: l2) = l1 ++ l2.
Proof.
  unfold splice1. rewrite Nat2Z.id.
  rewrite firstn_app, Nat.sub_diag, firstn_all. simpl firstn. rewrite app_nil_r.
  rewrite skipn_app, skipn_all2 by lia.
  replace (S (List.length l1) - List.length l1)%nat with 1%nat by lia.
  reflexivity.
Qed.

Lemma updateFirst_absent p (f : A -> A) l :
  (forall x, In x l -> p x = false) -> updateFirst p f l = l.
Proof.
  induction l as [|x r IH]; simpl; [reflexivity|].
  intros H. rewrite (H x (or_introl eq_refl)). f_equal. apply IH.
  intros y Hy. apply H. now right.
Qed.

End FindFacts.

(** ** Arrays: the stable sort under a comparator that subtracts keys *)

Section SortFacts.
Import JsArray.
Context {A : Type}.
Implicit Types (l : list A).

Lemma insert_perm (cmp : A -> A -> Z) x l :
  Permutation (insert cmp x l) (x :: l).
Proof.
  induction l as [|y r IH]; simpl; [apply Permutation_refl|].
  destruct (cmp x y <=? 0); [apply Permutation_refl|].
  eapply Permutation_trans; [apply perm_skip, IH|apply perm_swap].
Qed.

Lemma sort_perm (cmp : A -> A -> Z) l : Permutation (sort cmp l) l.
Proof.
  induction l as [|x r IH]; simpl; [constructor|].
  eapply Permutation_trans; [apply insert_perm|now apply perm_skip].
Qed.

Variable key : A -> Z.

Lemma insert_sorted x l :
  StronglySorted (keyLe key) l -> StronglySorted (keyLe key) (insert (byKey key) x l).
Proof.
  induction 1 as [|y r Hr IH Hy]; simpl.
  - constructor; constructor.
  - unfold byKey at 1. destruct (Z.leb_spec (key x - key y) 0) as [L|L].
    + constructor; [constructor; assumption|].
      constructor; [unfold keyLe; lia|].
      eapply Forall_impl; [|exact Hy]. unfold keyLe. intros; lia.
    + constructor; [exact IH|].
      eapply Permutation_Forall; [apply Permutation_sym, insert_perm|].
      constructor; [unfold keyLe; lia|exact Hy].
Qed.

Lemma sort_sorted l : StronglySorted (keyLe key) (sort (byKey key) l).
Proof.
  induction l as [|x r IH]; simpl; [constructor|now apply insert_sorted].
Qed.

(** Stability: tasks of equal key keep their order. *)
Lemma insert_stable k x l :
  List.filter (fun a => key a =? k) (insert (byKey key) x l)
  = List.filter (fun a => key a =? k) (x :: l).
Proof.
  induction l as [|y r IH]; [reflexivity|].
  simpl insert. unfold byKey at 1.
  destruct (Z.leb_spec (key x - key y) 0) as [L|L]; [reflexivity|].
  simpl. simpl in IH.
  destruct (Z.eqb_spec (key y) k) as [Ey|Ey];
    destruct (Z.eqb_spec (key x) k) as [Ex|Ex]; try lia;
    rewrite IH; reflexivity.
Qed.

Lemma sort_stable k l :
  List.filter (fun a => key a =? k) (sort (byKey key) l)
  = List.filter (fun a => key a =? k) l.
Proof.
  induction l as [|x r IH]; [reflexivity|].
  simpl sort. rewrite insert_stable. simpl. rewrite IH. reflexivity.
Qed.

(** When [m] is the least key, the tasks of key [m] come first, in their
    original order, and the sorted rest follows. *)
Variable m : Z.
Hypothesis key_lower : forall a, m <= key a.

Lemma insert_least x (u r : list A) :
  key x = m -> Forall (fun a => key a = m) u ->
  insert (byKey key) x (u ++ r) = x :: u ++ r.
Proof.
  intros Hx Hu. destruct u as [|y u]; simpl.
  - destruct r as [|y r]; simpl; [reflexivity|].
    unfold byKey. pose proof (key_lower y).
    destruct (Z.leb_spec (key x - key y) 0); [reflexivity|lia].
  - inversion Hu as [|? ? Hy _]; subst. unfold byKey.
    destruct (Z.leb_spec (key x - key y) 0); [reflexivity|lia].
Qed.

Lemma insert_above x (u r : list A) :
  key x <> m -> Forall (fun a => key a = m) u ->
  insert (byKey key) x (u ++ r) = u ++ insert (byKey key) x r.
Proof.
  intros Hx. induction 1 as [|y u Hy _ IH]; simpl; [reflexivity|].
  unfold byKey at 1. pose proof (key_lower x).
  destruct (Z.leb_spec (key x - key y) 0); [lia|]. now rewrite IH.
Qed.

Lemma sort_least_first l :
  sort (byKey key) l
  = List.filter (fun a => key a =? m) l
    ++ sort (byKey key) (List.filter (fun a => negb (key a =? m)) l).
Proof.
  induction l as [|x r IH]; [reflexivity|].
  simpl sort. rewrite IH. simpl List.filter.
  assert (Hu : Forall (fun a => key a = m)
                 (List.filter (fun a => key a =? m) r)).
  { apply Forall_forall. intros a Ha. apply filter_In in Ha.
    now apply Z.eqb_eq. }
  destruct (Z.eqb_spec (key x) m) as [E|E]; simpl negb; cbv iota.
  - rewrite insert_least by assumption. reflexivity.
  - rewrite insert_above by assumption. reflexivity.
Qed.

End SortFacts.

(* ================================================================== *)
(** ** Adding a task *)

Section AddFacts.
Import TodoApp.

(** C6.  For every input that is non-empty after trimming, adding it makes
    the collection one task longer, and the new task is its last element,
    not completed; its text is the trimmed input.  ([addTodo] itself, below
    the validation of [handleAddTodo], appends whatever text it is given.) *)
Theorem add_appends_uncompleted_task
  (input : string) (now jitter : Z) (iso : string) (s : State) :
  JsString.trim input <> "" ->
  let s' := exec (handleAddTodo input now jitter iso) s in
  let newTodo :=
    mkTodo (Helpers.generateId now jitter) (JsString.trim input) false iso in
  todos s' = todos s ++ [newTodo]
  /\ List.length (todos s') = S (List.length (todos s))
  /\ last (todos s') newTodo = newTodo
  /\ completed (last (todos s') newTodo) = false
  /\ todos (exec (addTodo input now jitter iso) s)
     = todos s ++ [mkTodo (Helpers.generateId now jitter) input false iso].
Proof.
  intros Hne s' newTodo.
  assert (E : todos s' = todos s ++ [newTodo]).
  { unfold s', handleAddTodo.
    rewrite validateTodoText_trim.
    apply validateTodoText_spec in Hne. rewrite Hne. reflexivity. }
  rewrite E. repeat split.
  - rewrite length_app. simpl. lia.
  - apply last_last.
  - rewrite last_last. reflexivity.
Qed.

Lemma add_appends_uncompleted_task_witness :
  JsString.trim "  Buy Milk " <> ""
  /\ todos (exec (handleAddTodo "  Buy Milk " 1700000000000 42
                    "2023-11-14T22:13:20.000Z") constructor)
     = [mkTodo 1700000000042 "Buy Milk" false "2023-11-14T22:13:20.000Z"].
Proof.
  assert (H : JsString.trim "  Buy Milk " <> "") by (vm_compute; discriminate).
  split; [exact H|].
  exact (proj1 (add_appends_uncompleted_task "  Buy Milk " 1700000000000 42
                  "2023-11-14T22:13:20.000Z" constructor H)).
Defined.

(** C7.  For every input that is empty after trimming, [handleAddTodo]
    creates nothing: the state, and with it the collection, is the one
    before, nothing is saved or rendered, and the refusal is reported by
    the warning toast [MESSAGES.NO_TASK_INPUT] (the form the code gives to
    the invalid-input outcome). *)
Theorem add_blank_is_refused
  (input : string) (now jitter : Z) (iso : string) (s : State) :
  JsString.trim input = "" ->
  handleAddTodo input now jitter iso s
  = (tt, s, [Toast warning MESSAGES.NO_TASK_INPUT]).
Proof.
  intros He. unfold handleAddTodo.
  destruct (Helpers.validateTodoText (JsString.trim input)) eqn:V.
  - rewrite validateTodoText_trim in V. apply validateTodoText_spec in V.
    contradiction.
  - reflexivity.
Qed.

Lemma add_blank_is_refused_witness :
  JsString.trim "   " = ""
  /\ handleAddTodo "   " 1700000000000 42 "2023-11-14T22:13:20.000Z"
       (mkState [mkTodo 1 "a" false "d"] "all" "" None None)
     = (tt, mkState [mkTodo 1 "a" false "d"] "all" "" None None,
        [Toast warning MESSAGES.NO_TASK_INPUT]).
Proof.
  split; [reflexivity|].
  apply (add_blank_is_refused "   "). reflexivity.
Defined.

End AddFacts.

(* ================================================================== *)
(** ** Operations on an id *)

Section IdFacts.
Import TodoApp.

Lemma id_absent_tests (l : list Todo) (i : number) :
  ~ In i (map id l) -> forall t, In t l -> (id t === i) = false.
Proof.
  intros H t Ht. apply number_eqb_neq. intros E. apply H. subst i.
  now apply in_map.
Qed.

Lemma id_present_index (l : list Todo) (i : number) :
  In i (map id l) -> JsArray.findIndex (fun t => id t === i) l <> -1.
Proof.
  intros H E. apply in_map_iff in H. destruct H as (t & Ht & Hin).
  rewrite findIndex_absent in E. specialize (E t Hin).
  apply number_eqb_neq in E. contradiction.
Qed.

(** What [deleteTodo] does to a collection split at the first task of
    the id. *)
Lemma deleteTodo_present (s : State) (i : number) (now : Z)
  (l1 l2 : list Todo) (t : Todo) :
  todos s = l1 ++ t :: l2 ->
  JsArray.findIndex (fun t => id t === i) (todos s)
  = Z.of_nat (List.length l1) ->
  exec (deleteTodo i now) s
  = mkState (l1 ++ l2) (filter s) (searchQuery s) (Some t) (Some now).
Proof.
  intros Hl Hi. unfold exec, deleteTodo, bind, get. simpl.
  rewrite Hi. destruct (Z.eqb_spec (Z.of_nat (List.length l1)) (-1)); [lia|].
  simpl. rewrite Hl, at_index_middle, splice1_middle. reflexivity.
Qed.

(** C8, as the code has it.  For every id that no task of the collection
    carries, [toggleTodo], [editTodo] and [deleteTodo] return at once: the
    state (tasks, order, field values, filter, query and undo slot) is the
    one before and nothing is saved, rendered, shown or scheduled.  No
    method reports the absence to its caller. *)
Theorem absent_id_is_silent_noop
  (s : State) (i : number) (now : Z) (answer : option string) :
  ~ In i (map id (todos s)) ->
  toggleTodo i s = (tt, s, [])
  /\ editTodo i answer s = (tt, s, [])
  /\ deleteTodo i now s = (tt, s, []).
Proof.
  intros H. pose proof (id_absent_tests _ _ H) as Ht.
  assert (F : find (fun t => id t === i) (todos s) = None)
    by now apply find_absent.
  assert (X : JsArray.findIndex (fun t => id t === i) (todos s) = -1)
    by now apply findIndex_absent.
  repeat split.
  - unfold toggleTodo, bind, get. simpl. rewrite F. reflexivity.
  - unfold editTodo, bind, get. simpl. rewrite F. reflexivity.
  - unfold deleteTodo, bind, get. simpl. rewrite X. reflexivity.
Qed.

Lemma absent_id_is_silent_noop_witness :
  let s := mkState [mkTodo 1 "a" false "d1"; mkTodo 2 "b" true "d2"]
             "all" "" None None in
  ~ In (Int 7) (map id (todos s))
  /\ toggleTodo 7 s = (tt, s, [])
  /\ editTodo 7 (Some "c") s = (tt, s, [])
  /\ deleteTodo 7 1700000000000 s = (tt, s, []).
Proof.
  intros s.
  assert (H : ~ In (Int 7) (map id (todos s))).
  { simpl. intros [E|[E|[]]]; discriminate. }
  split; [exact H|].
  exact (absent_id_is_silent_noop s 7 1700000000000 (Some "c") H).
Defined.

(** C8 as the specification words it fails in its last part: on an id
    that is absent, [editTodo] and [deleteTodo] report nothing. *)
Lemma absent_id_reports_nothing :
  let s := mkState [mkTodo 1 "a" false "d1"; mkTodo 2 "b" true "d2"]
             "all" "" None None in
  ~ In (Int 7) (map id (todos s))
  /\ ~ (Spec.reports (effects (editTodo 7 (Some "c")) s) = true
        /\ Spec.reports (effects (deleteTodo 7 1700000000000) s) = true).
Proof.
  intros s. split.
  - simpl. intros [E|[E|[]]]; discriminate.
  - intros [E _]. vm_compute in E. discriminate.
Qed.

(** C4.  When the collection has a task of the id, [deleteTodo] removes
    the first such task [t] and the undo callback, confirmed at a time
    less than 5000 ms after the deletion, puts [t] itself (its id, text,
    completed and createdAt) back as the last element; the callback also
    saves, renders and empties the undo slot. *)
Theorem delete_then_undo_restores_at_end
  (s : State) (i : number) (deletedAt undoAt : Z) :
  In i (map id (todos s)) ->
  undoAt - deletedAt < 5000 ->
  exists (l1 l2 : list Todo) (t : Todo) (s2 : State) (e : list Effect),
    todos s = l1 ++ t :: l2
    /\ id t = i
    /\ (forall y, In y l1 -> id y <> i)
    /\ todos (exec (deleteTodo i deletedAt) s) = l1 ++ l2
    /\ undoCallback true undoAt (exec (deleteTodo i deletedAt) s)
       = Some (tt, s2, e)
    /\ todos s2 = (l1 ++ l2) ++ [t]
    /\ last (todos s2) t = t
    /\ deletedTodo s2 = None /\ deletedTime s2 = None.
Proof.
  intros Hin Hwin.
  destruct (findIndex_present _ _ (id_present_index _ _ Hin))
    as (l1 & t & l2 & Hl & Pt & Hl1 & Hi).
  rewrite (deleteTodo_present s i deletedAt l1 l2 t Hl Hi).
  exists l1, l2, t. eexists. eexists.
  split; [exact Hl|]. split; [now apply number_eqb_eq|].
  split; [intros y Hy; apply number_eqb_neq; now apply Hl1|].
  split; [reflexivity|].
  unfold undoCallback. simpl.
  unfold APP_CONFIG.MAX_UNDO_TIME.
  destruct (Z.ltb_spec (undoAt - deletedAt) 5000) as [_|]; [|lia].
  split; [reflexivity|]. simpl.
  split; [reflexivity|]. split; [apply last_last|]. split; reflexivity.
Qed.

Lemma delete_then_undo_restores_at_end_witness :
  let s := mkState [mkTodo 1 "a" false "d1"; mkTodo 2 "b" true "d2";
                    mkTodo 3 "c" false "d3"] "all" "" None None in
  exists s1 s2 e,
    step (DeleteTodo 2 1700000000000) s = Some s1
    /\ undoCallback true 1700000004999 s1 = Some (tt, s2, e)
    /\ todos s2 = [mkTodo 1 "a" false "d1"; mkTodo 3 "c" false "d3";
                   mkTodo 2 "b" true "d2"].
Proof.
  intros s.
  assert (Hin : In (Int 2) (map id (todos s))) by (simpl; auto).
  assert (Hwin : 1700000004999 - 1700000000000 < 5000) by lia.
  destruct (delete_then_undo_restores_at_end s 2 1700000000000 1700000004999
              Hin Hwin) as (l1 & l2 & t & s2 & e & _ & _ & _ & _ & Hu & _).
  exists (exec (deleteTodo 2 1700000000000) s), s2, e.
  split; [reflexivity|]. split; [exact Hu|].
  vm_compute in Hu. injection Hu as <- _. reflexivity.
Defined.

(** C5.  When the collection has a task of the id, the undo callback
    confirmed 5000 ms or more after [deleteTodo] restores nothing: the
    collection stays as the deletion left it (the first task of the id
    gone, one task fewer than before), nothing is saved or shown, and the
    undo slot is emptied. *)
Theorem delete_then_late_undo_is_noop
  (s : State) (i : number) (deletedAt undoAt : Z) :
  In i (map id (todos s)) ->
  5000 <= undoAt - deletedAt ->
  let s1 := exec (deleteTodo i deletedAt) s in
  exists (l1 l2 : list Todo) (t : Todo) (s2 : State),
    todos s = l1 ++ t :: l2
    /\ id t = i
    /\ undoCallback true undoAt s1 = Some (tt, s2, [])
    /\ todos s2 = todos s1
    /\ todos s2 = l1 ++ l2
    /\ S (List.length (todos s2)) = List.length (todos s)
    /\ deletedTodo s2 = None /\ deletedTime s2 = None.
Proof.
  intros Hin Hlate s1. unfold s1.
  destruct (findIndex_present _ _ (id_present_index _ _ Hin))
    as (l1 & t & l2 & Hl & Pt & Hl1 & Hi).
  rewrite (deleteTodo_present s i deletedAt l1 l2 t Hl Hi).
  exists l1, l2, t. eexists.
  split; [exact Hl|]. split; [now apply number_eqb_eq|].
  unfold undoCallback. simpl.
  unfold APP_CONFIG.MAX_UNDO_TIME.
  destruct (Z.ltb_spec (undoAt - deletedAt) 5000) as [|_]; [lia|].
  split; [reflexivity|]. simpl.
  split; [reflexivity|]. split; [reflexivity|].
  split; [|split; reflexivity].
  rewrite Hl, !length_app. simpl. lia.
Qed.

Lemma delete_then_late_undo_is_noop_witness :
  let s := mkState [mkTodo 1 "a" false "d1"; mkTodo 2 "b" true "d2";
                    mkTodo 3 "c" false "d3"] "all" "" None None in
  exists s2,
    undoCallback true 1700000005000 (exec (deleteTodo 2 1700000000000) s)
    = Some (tt, s2, [])
    /\ todos s2 = [mkTodo 1 "a" false "d1"; mkTodo 3 "c" false "d3"].
Proof.
  intros s.
  assert (Hin : In (Int 2) (map id (todos s))) by (simpl; auto).
  assert (Hlate : 5000 <= 1700000005000 - 1700000000000) by lia.
  destruct (delete_then_late_undo_is_noop s 2 1700000000000 1700000005000
              Hin Hlate) as (l1 & l2 & t & s2 & _ & _ & Hu & _).
  exists s2. split; [exact Hu|].
  vm_compute in Hu. injection Hu as <-. reflexivity.
Defined.

End IdFacts.

(* ================================================================== *)
(** ** Reordering *)

Section ReorderFacts.
Import TodoApp.

Lemma reorderTodos_sort (orderedIds : list number) (s : State) :
  todos (exec (reorderTodos orderedIds) s)
  = JsArray.sort (byKey (position orderedIds)) (todos s).
Proof. reflexivity. Qed.

Lemma position_lower (orderedIds : list number) (t : Todo) :
  -1 <= position orderedIds t.
Proof. apply findIndex_lower. Qed.

Lemma position_recognized (orderedIds : list number) (t : Todo) :
  (position orderedIds t =? -1) = negb (recognized orderedIds t).
Proof.
  unfold position, recognized, JsArray.indexOf.
  destruct (existsb (Number.eqb (id t)) orderedIds) eqn:E; simpl.
  - apply Z.eqb_neq. intros X. apply findIndex_existsb in X. congruence.
  - apply Z.eqb_eq. now apply findIndex_existsb.
Qed.

(** C10.  For every list of ids, with unknown, repeated or missing ids as
    well, [reorderTodos] leaves a permutation of the collection: the same
    task records, each as often as before. *)
Theorem reorder_is_permutation (orderedIds : list number) (s : State) :
  Permutation (todos (exec (reorderTodos orderedIds) s)) (todos s).
Proof. rewrite reorderTodos_sort. apply sort_perm. Qed.

Lemma StronglySorted_restrict {A : Type} (R R' : A -> A -> Prop) (l : list A) :
  (forall a b, In a l -> In b l -> R a b -> R' a b) ->
  StronglySorted R l -> StronglySorted R' l.
Proof.
  intros H S. induction S as [|x r Sr IH Hx]; constructor.
  - apply IH. intros a b Ha Hb. apply H; now right.
  - apply Forall_forall. intros b Hb. apply H; [now left|now right|].
    rewrite Forall_forall in Hx. now apply Hx.
Qed.

Lemma StronglySorted_map_id (orderedIds : list number) (l : list Todo) :
  StronglySorted (keyLe (position orderedIds)) l ->
  StronglySorted (keyLe (JsArray.indexOf orderedIds)) (map id l).
Proof.
  induction 1 as [|x r Sr IH Hx]; simpl; constructor; [exact IH|].
  apply Forall_forall. intros b Hb. apply in_map_iff in Hb.
  destruct Hb as (t & <- & Ht). rewrite Forall_forall in Hx.
  exact (Hx t Ht).
Qed.

Lemma indexOf_head (x : number) (ids : list number) :
  JsArray.indexOf (x :: ids) x = 0.
Proof. unfold JsArray.indexOf. simpl. now rewrite number_eqb_refl. Qed.

Lemma indexOf_tail (x y : number) (ids : list number) :
  y <> x -> In y ids ->
  JsArray.indexOf (x :: ids) y = JsArray.indexOf ids y + 1
  /\ 0 <= JsArray.indexOf ids y.
Proof.
  intros Hne Hin. unfold JsArray.indexOf. simpl.
  destruct (y === x) eqn:Eyx; [apply number_eqb_eq in Eyx; contradiction|].
  pose proof (findIndex_lower (Number.eqb y) ids) as Hlow.
  destruct (Z.eqb_spec (JsArray.findIndex (Number.eqb y) ids) (-1)) as [E|E].
  - exfalso. rewrite findIndex_absent in E. specialize (E y Hin).
    rewrite number_eqb_refl in E. discriminate.
  - split; lia.
Qed.

(** The one arrangement of distinct ids that is sorted by position in
    [ids] is [ids] itself. *)
Lemma sorted_by_position_unique (ids l : list number) :
  NoDup ids -> Permutation l ids ->
  StronglySorted (keyLe (JsArray.indexOf ids)) l -> l = ids.
Proof.
  revert l. induction ids as [|x ids IH]; intros l Hnd Hp Hs.
  - now apply Permutation_nil, Permutation_sym.
  - destruct l as [|y l]; [apply Permutation_nil_cons in Hp; contradiction|].
    inversion Hnd as [|? ? Hx Hnd']; subst.
    inversion Hs as [|? ? Hs' Hy]; subst.
    assert (E : y = x).
    { destruct (number_eq_dec y x) as [|Hne]; [assumption|exfalso].
      assert (Hyin : In y ids).
      { assert (H : In y (x :: ids))
          by (eapply Permutation_in; [exact Hp|now left]).
        destruct H; [congruence|assumption]. }
      assert (Hxin : In x l).
      { assert (H : In x (y :: l))
          by (eapply Permutation_in;
              [apply Permutation_sym; exact Hp|now left]).
        destruct H; [congruence|assumption]. }
      rewrite Forall_forall in Hy. specialize (Hy x Hxin).
      unfold keyLe in Hy. rewrite indexOf_head in Hy.
      destruct (indexOf_tail x y ids Hne Hyin). lia. }
    subst y. f_equal. apply Permutation_cons_inv in Hp.
    apply IH; [assumption|assumption|].
    apply (StronglySorted_restrict (keyLe (JsArray.indexOf (x :: ids))));
      [|assumption].
    intros a b Ha Hb. unfold keyLe.
    assert (Ha' : In a ids) by (eapply Permutation_in; eassumption).
    assert (Hb' : In b ids) by (eapply Permutation_in; eassumption).
    assert (a <> x) by (intros ->; contradiction).
    assert (b <> x) by (intros ->; contradiction).
    destruct (indexOf_tail x a ids) as [-> _]; auto.
    destruct (indexOf_tail x b ids) as [-> _]; auto. lia.
Qed.

(** C2, as the code has it.  [reorderTodos] arranges the collection by the
    position of each task's id in [orderedIds]: the tasks whose id is not
    in [orderedIds] come first, in the order they had, and the recognized
    tasks follow them, sorted by position (first occurrence of the id;
    tasks of one id keep their order).  When [orderedIds] lists the ids of
    the collection, each once, the ids of the result are [orderedIds]. *)
Theorem reorder_sorts_by_position (orderedIds : list number) (s : State) :
  let after := todos (exec (reorderTodos orderedIds) s) in
  after
  = List.filter (fun t => negb (recognized orderedIds t)) (todos s)
    ++ JsArray.sort (byKey (position orderedIds))
         (List.filter (recognized orderedIds) (todos s))
  /\ StronglySorted (keyLe (position orderedIds)) after
  /\ (forall k, List.filter (fun t => position orderedIds t =? k) after
                = List.filter (fun t => position orderedIds t =? k) (todos s))
  /\ (NoDup orderedIds -> Permutation orderedIds (map id (todos s)) ->
      map id after = orderedIds).
Proof.
  intros after. unfold after. rewrite reorderTodos_sort.
  split; [|split; [|split]].
  - rewrite (sort_least_first (position orderedIds) (-1)
               (position_lower orderedIds)).
    f_equal.
    + apply filter_ext. intros t. apply position_recognized.
    + f_equal. apply filter_ext. intros t.
      rewrite position_recognized. apply negb_involutive.
  - apply sort_sorted.
  - intros k. apply sort_stable.
  - intros Hnd Hp. apply sorted_by_position_unique; [assumption| |].
    + eapply Permutation_trans;
        [apply Permutation_map, sort_perm|now apply Permutation_sym].
    + apply StronglySorted_map_id, sort_sorted.
Qed.

Lemma reorder_sorts_by_position_witness :
  let s := mkState [mkTodo 1 "a" false "d1"; mkTodo 2 "b" true "d2";
                    mkTodo 3 "c" false "d3"] "all" "" None None in
  map id (todos (exec (reorderTodos [Int 3; Int 1; Int 2]) s))
  = [Int 3; Int 1; Int 2].
Proof.
  intros s.
  refine (proj2 (proj2 (proj2
            (reorder_sorts_by_position [Int 3; Int 1; Int 2] s))) _ _).
  - repeat constructor; simpl; intros H;
      repeat (destruct H as [H|H]; [discriminate H|]); exact H.
  - simpl. apply Permutation_sym.
    apply (perm_trans (perm_skip (Int 1) (perm_swap (Int 3) (Int 2) []))).
    apply perm_swap.
Defined.

(** C2 as the specification words it fails on a partial list: the task
    whose id is missing from [orderedIds] is put first, not last.  Here
    the filter shows the two active tasks and the drop hands their ids,
    3 before 1, to [reorderTodos]. *)
Lemma reorder_partial_list_counterexample :
  let t1 := mkTodo 1 "a" false "d1" in
  let t2 := mkTodo 2 "b" true "d2" in
  let t3 := mkTodo 3 "c" false "d3" in
  let s := mkState [t1; t2; t3] "active" "" None None in
  TodoRenderer.filterTodos (todos s) (filter s) (searchQuery s) = [t1; t3]
  /\ todos (exec (reorderTodos [Int 3; Int 1]) s) = [t2; t3; t1]
  /\ Spec.reorder [Int 3; Int 1] (todos s) = [t3; t1; t2]
  /\ todos (exec (reorderTodos [Int 3; Int 1]) s)
     <> Spec.reorder [Int 3; Int 1] (todos s).
Proof.
  intros t1 t2 t3 s. split; [reflexivity|].
  split; [reflexivity|]. split; [reflexivity|].
  vm_compute. discriminate.
Qed.

End ReorderFacts.

(* ================================================================== *)
(** ** The visible tasks *)

Section FilterFacts.
Import TodoApp.

Lemma filter_sublist {A : Type} (f : A -> bool) (l : list A) :
  sublist (List.filter f l) l.
Proof.
  induction l as [|x r IH]; simpl; [constructor|].
  destruct (f x); now constructor.
Qed.

Lemma filter_and {A : Type} (f g : A -> bool) (l : list A) :
  List.filter g (List.filter f l) = List.filter (fun x => f x && g x) l.
Proof.
  induction l as [|x r IH]; simpl; [reflexivity|].
  destruct (f x); simpl; [destruct (g x)|]; now rewrite IH.
Qed.

Lemma filter_all {A : Type} (f : A -> bool) (l : list A) :
  (forall x, f x = true) -> List.filter f l = l.
Proof.
  intros H. induction l as [|x r IH]; simpl; [reflexivity|].
  now rewrite H, IH.
Qed.

Lemma filterTodos_one_filter (l : list Todo) (f q : string) :
  TodoRenderer.filterTodos l f q
  = List.filter (fun t => matchesSearch q t && matchesFilter f t) l.
Proof.
  unfold TodoRenderer.filterTodos, matchesSearch, matchesFilter.
  destruct (JsString.trim q =? "")%string; simpl;
    destruct (f =? "active")%string;
    try destruct (f =? "completed")%string;
    rewrite ?filter_and; try reflexivity.
  - symmetry. now apply filter_all.
  - symmetry. apply filter_ext. intros t. now rewrite andb_true_r.
Qed.

(** C3, as the code has it.  [filterTodos] returns, in the order of the
    collection, exactly the tasks that pass both tests: the search test,
    which holds when the query is empty after trimming and otherwise when
    the lower-cased text of the task contains the lower-cased query as it
    was typed (not trimmed), and the completion test of the filter.  It
    is a function of the three fields, and [render], which shows its
    result, leaves the state as it was. *)
Theorem visible_tasks_pass_both_tests (l : list Todo) (f q : string) :
  TodoRenderer.filterTodos l f q
  = List.filter (fun t => matchesSearch q t && matchesFilter f t) l
  /\ sublist (TodoRenderer.filterTodos l f q) l
  /\ (forall t, In t (TodoRenderer.filterTodos l f q)
                <-> In t l /\ matchesSearch q t = true
                    /\ matchesFilter f t = true)
  /\ (forall s, render s
                = (tt, s, [Render (TodoRenderer.filterTodos
                                     (todos s) (filter s) (searchQuery s))])).
Proof.
  rewrite filterTodos_one_filter. split; [reflexivity|].
  split; [apply filter_sublist|]. split; [|reflexivity].
  intros t. rewrite filter_In, andb_true_iff. tauto.
Qed.

(** C3 as the specification words it fails on a query with a space at
    one end: the code looks for the query with its space, the
    specification for the trimmed query. *)
Lemma visible_tasks_untrimmed_query_counterexample :
  let t := mkTodo 1 "Buy Milk" false "2023-11-14T22:13:20.000Z" in
  TodoRenderer.filterTodos [t] "all" "milk " = []
  /\ Spec.visibleTasks [t] "all" "milk " = [t]
  /\ TodoRenderer.filterTodos [t] "all" "milk "
     <> Spec.visibleTasks [t] "all" "milk ".
Proof.
  intros t. split; [reflexivity|]. split; [reflexivity|].
  vm_compute. discriminate.
Qed.

End FilterFacts.

(* ================================================================== *)
(** ** Loading *)

Section LoadFacts.
Import TodoApp StorageManager.

(** The elements that [validateTodos] accepts are the objects that carry
    the four fields with a number, a string, a boolean and a string. *)
Lemma validTodo_true_iff (v : JSON) :
  validTodo v = true <->
  exists props i t c d,
    v = JObject props
    /\ lookup "id" props = Some (JNumber i)
    /\ lookup "text" props = Some (JString t)
    /\ lookup "completed" props = Some (JBool c)
    /\ lookup "createdAt" props = Some (JString d).
Proof.
  split.
  - destruct v as [| | | | |props]; try (intros H; discriminate H).
    unfold validTodo, getProp. intros H.
    repeat rewrite andb_true_iff in H.
    destruct H as [[[[_ H1] H2] H3] H4].
    destruct (lookup "id" props) as [[| |i| | |]|] eqn:E1;
      try (cbn in H1; discriminate H1).
    destruct (lookup "text" props) as [[| | |t| |]|] eqn:E2;
      try (cbn in H2; discriminate H2).
    destruct (lookup "completed" props) as [[|c| | | |]|] eqn:E3;
      try (cbn in H3; discriminate H3).
    destruct (lookup "createdAt" props) as [[| | |d| |]|] eqn:E4;
      try (cbn in H4; discriminate H4).
    exists props, i, t, c, d. repeat split; reflexivity || assumption.
  - intros (props & i & t & c & d & -> & H1 & H2 & H3 & H4).
    unfold validTodo, getProp. rewrite H1, H2, H3, H4. reflexivity.
Qed.

(** Every element of an accepted array is read as a task. *)
Lemma asTodos_valid (items : list JSON) :
  forallb validTodo items = true ->
  List.length (asTodos items) = List.length items.
Proof.
  induction items as [|v r IH]; simpl; [reflexivity|].
  intros H. apply andb_true_iff in H. destruct H as [Hv Hr].
  apply validTodo_true_iff in Hv.
  destruct Hv as (props & i & t & c & d & -> & H1 & H2 & H3 & H4).
  unfold asTodo, getProp. rewrite H1, H2, H3, H4. simpl.
  now rewrite IH.
Qed.

Lemma validateTodos_false_iff (data : JSON) :
  validateTodos data = false <->
  (forall items, data <> JArray items)
  \/ exists items v, data = JArray items /\ In v items /\ validTodo v = false.
Proof.
  split.
  - destruct data as [| | | |items|]; simpl;
      try (intros _; left; intros items' E; discriminate E).
    intros H. right. exists items.
    destruct (forallb_forall validTodo items) as [_ Hall].
    assert (X : exists v, In v items /\ validTodo v = false).
    { clear Hall. induction items as [|v r IH]; simpl in *; [discriminate|].
      destruct (validTodo v) eqn:V.
      - destruct (IH H) as (w & Hw & Vw). exists w. auto.
      - exists v. auto. }
    destruct X as (v & Hv & Vv). exists v. auto.
  - intros [H | (items & v & -> & Hv & Vv)].
    + destruct data; try reflexivity. exfalso. eapply H. reflexivity.
    + simpl. destruct (forallb validTodo items) eqn:E; [|reflexivity].
      rewrite forallb_forall in E. rewrite (E v Hv) in Vv. discriminate.
Qed.

(** [loadFromStorage] keeps the tasks it finds in the state when the
    stored payload does not validate. *)
Lemma loadFromStorage_invalid (st : Storage) (s : State) :
  validateTodos (load st APP_CONFIG.STORAGE_KEY (JArray [])) = false ->
  todos (exec (loadFromStorage st) s) = todos s.
Proof.
  intros H. unfold exec, loadFromStorage, bind. rewrite H.
  destruct (load st APP_CONFIG.FILTER_KEY JNull) as [| | |f| |];
    try reflexivity.
  destruct (existsb (String.eqb f) FILTER_TYPES.values); reflexivity.
Qed.

(** C9, as the code has it.  When the payload stored under the key of the
    tasks does not pass [validateTodos] - it is no array, or one of its
    elements is not an object that carries a number [id] (any number, an
    integer or not), a string [text], a boolean [completed] and a string
    [createdAt] - the application starts with an empty collection: no
    element of the payload is kept, and construction returns a state. *)
Theorem load_invalid_payload_gives_empty (st : Storage) (payload : JSON) :
  st APP_CONFIG.STORAGE_KEY = ItemValue payload ->
  validateTodos payload = false ->
  todos (fst (TodoApp.new st)) = []
  /\ ((forall items, payload <> JArray items)
      \/ exists items v,
           payload = JArray items /\ In v items
           /\ ~ (exists props i t c d,
                   v = JObject props
                   /\ lookup "id" props = Some (JNumber i)
                   /\ lookup "text" props = Some (JString t)
                   /\ lookup "completed" props = Some (JBool c)
                   /\ lookup "createdAt" props = Some (JString d))).
Proof.
  intros Hst Hv. split.
  - assert (H : validateTodos (load st APP_CONFIG.STORAGE_KEY (JArray []))
                = false)
      by (unfold load; now rewrite Hst).
    pose proof (loadFromStorage_invalid st constructor H) as E.
    unfold TodoApp.new, exec, bind in *.
    destruct (loadFromStorage st constructor) as [[u s1] e1]. simpl in E.
    simpl. exact E.
  - apply validateTodos_false_iff in Hv.
    destruct Hv as [H | (items & v & E & Hv & Vv)]; [now left|right].
    exists items, v. split; [exact E|]. split; [exact Hv|].
    intros X. apply validTodo_true_iff in X. congruence.
Qed.

Lemma load_invalid_payload_gives_empty_witness :
  let good := JObject [("id", JNumber 1); ("text", JString "a");
                       ("completed", JBool false); ("createdAt", JString "d")] in
  let bad := JObject [("id", JString "2"); ("text", JString "b");
                      ("completed", JBool false); ("createdAt", JString "d")] in
  let st := fun k => if (k =? "todos")%string
                     then ItemValue (JArray [good; bad]) else ItemNull in
  validateTodos (JArray [good; bad]) = false
  /\ validateTodos (JArray [good]) = true
  /\ todos (fst (TodoApp.new st)) = [].
Proof.
  intros good bad st.
  assert (H : validateTodos (JArray [good; bad]) = false) by reflexivity.
  split; [exact H|]. split; [reflexivity|].
  exact (proj1 (load_invalid_payload_gives_empty st (JArray [good; bad])
                  eq_refl H)).
Defined.

(** C9 as the specification words it fails on an id that is a number but
    no integer: the element lacks an integer id, yet [validateTodos]
    accepts the payload and the application starts with its task. *)
Lemma load_fractional_id_counterexample :
  let task := JObject [("id", JNumber (Fraction 1 1)); ("text", JString "a");
                       ("completed", JBool false); ("createdAt", JString "d")] in
  let st := fun k => if (k =? "todos")%string
                     then ItemValue (JArray [task]) else ItemNull in
  Spec.validateCollection (JArray [task]) = false
  /\ validateTodos (JArray [task]) = true
  /\ todos (fst (TodoApp.new st)) = [mkTodo (Fraction 1 1) "a" false "d"]
  /\ todos (fst (TodoApp.new st)) <> [].
Proof.
  intros task st. split; [reflexivity|]. split; [reflexivity|].
  split; [reflexivity|]. vm_compute. discriminate.
Qed.

End LoadFacts.

(* ================================================================== *)
(** ** Uniqueness of ids *)

Section IdUniqueness.
Import TodoApp.

Lemma updateFirst_ids (p : Todo -> bool) (f : Todo -> Todo) (l : list Todo) :
  (forall t, id (f t) = id t) ->
  map id (JsArray.updateFirst p f l) = map id l.
Proof.
  intros H. induction l as [|x r IH]; simpl; [reflexivity|].
  destruct (p x); simpl; [now rewrite H|now rewrite IH].
Qed.

Lemma NoDup_ids_filter (f : Todo -> bool) (l r : list Todo) :
  NoDup (map id (l ++ r)) -> NoDup (map id (List.filter f l ++ r)).
Proof.
  induction l as [|x l IH]; simpl; [auto|].
  intros H. inversion H as [|? ? Hx Hn]; subst.
  destruct (f x); simpl; [|now apply IH].
  constructor; [|now apply IH].
  intros Hin. apply Hx. rewrite map_app, in_app_iff in *.
  destruct Hin as [Hin|Hin]; [left|now right].
  apply in_map_iff in Hin. destruct Hin as (t & E & Ht).
  apply filter_In in Ht. apply in_map_iff. exists t. tauto.
Qed.

Lemma NoDup_ids_perm (l l' : list Todo) :
  Permutation l l' -> NoDup (map id l) -> NoDup (map id l').
Proof.
  intros P. apply Permutation_NoDup. now apply Permutation_map.
Qed.

Lemma NoDup_ids_prefix (l r : list Todo) :
  NoDup (map id (l ++ r)) -> NoDup (map id (l ++ [])).
Proof.
  rewrite app_nil_r, map_app. apply NoDup_app_remove_r.
Qed.

(** Every action but an add that draws an id already held keeps the ids
    of the held tasks distinct. *)
Lemma step_keeps_ids_unique (a : Action) (s s' : State) :
  idsUnique s -> freshAt a s -> step a s = Some s' -> idsUnique s'.
Proof.
  unfold idsUnique, held. intros U F St.
  destruct a as [v now jitter iso|i|i answer|i now|c now|c|ids|f|q];
    cbn [step] in St.
  - (* handleAddTodo *)
    injection St as <-. unfold exec, handleAddTodo. cbn [freshAt] in F.
    destruct (Helpers.validateTodoText (JsString.trim v)); cbn; [|exact U].
    specialize (F eq_refl).
    eapply NoDup_ids_perm
      with (l := mkTodo (Helpers.generateId now jitter) (JsString.trim v)
                   false iso :: held s);
      [|cbn; constructor; [exact F|exact U]].
    unfold held. rewrite <- app_assoc. cbn.
    apply Permutation_middle.
  - (* toggleTodo *)
    injection St as <-. unfold exec, toggleTodo, bind, get. cbn.
    destruct (find (fun t => id t === i) (todos s)); cbn; [|exact U].
    rewrite map_app, updateFirst_ids by reflexivity.
    now rewrite <- map_app.
  - (* editTodo *)
    injection St as <-. unfold exec, editTodo, bind, get. cbn.
    destruct (find (fun t => id t === i) (todos s)); cbn; [|exact U].
    destruct answer as [newText|]; cbn; [|exact U].
    destruct (Helpers.validateTodoText newText); cbn; [|exact U].
    rewrite map_app, updateFirst_ids by reflexivity.
    now rewrite <- map_app.
  - (* deleteTodo *)
    injection St as <-.
    destruct (Z.eq_dec (JsArray.findIndex (fun t => id t === i) (todos s)) (-1))
      as [E|E].
    + unfold exec, deleteTodo, bind, get. cbn. rewrite E. exact U.
    + destruct (findIndex_present _ _ E) as (l1 & t & l2 & Hl & _ & _ & Hi).
      rewrite (deleteTodo_present s i now l1 l2 t Hl Hi). cbn.
      rewrite Hl in U. apply NoDup_ids_prefix in U. rewrite app_nil_r in U.
      eapply NoDup_ids_perm; [|exact U].
      rewrite <- app_assoc. apply Permutation_app_head.
      apply Permutation_cons_append.
  - (* the undo callback *)
    unfold undoCallback in St.
    destruct (c && (now - toNumber (deletedTime s) <? APP_CONFIG.MAX_UNDO_TIME)).
    + destruct (deletedTodo s) as [t|]; [|discriminate].
      injection St as <-. cbn. rewrite app_nil_r. exact U.
    + injection St as <-. cbn. exact (NoDup_ids_prefix _ _ U).
  - (* clearCompleted *)
    injection St as <-. unfold exec, clearCompleted, bind, get. cbn.
    destruct (Nat.eqb _ 0); cbn; [exact U|].
    destruct c; cbn; [|exact U]. now apply NoDup_ids_filter.
  - (* reorderTodos *)
    injection St as <-. cbn.
    eapply NoDup_ids_perm; [|exact U].
    apply Permutation_app_tail, Permutation_sym, sort_perm.
  - injection St as <-. exact U.
  - injection St as <-. exact U.
Qed.

(** X21.  From a state whose held tasks have distinct ids, a run whose adds all
    draw fresh ids ends in such a state. *)
Lemma run_keeps_ids_unique (actions : list Action) (s s' : State) :
  idsUnique s -> freshAlong actions s -> run actions s = Some s' ->
  idsUnique s' /\ NoDup (map id (todos s')).
Proof.
  revert s. induction actions as [|a r IH]; intros s U F R; cbn in R.
  - injection R as <-. split; [exact U|].
    unfold idsUnique, held in U. rewrite map_app in U.
    exact (NoDup_app_remove_r _ _ U).
  - destruct F as [Fa Fr]. destruct (step a s) as [s1|] eqn:St; [|discriminate].
    apply (IH s1); [|exact Fr|exact R].
    exact (step_keeps_ids_unique a s s1 U Fa St).
Qed.

Lemma run_keeps_ids_unique_witness :
  let s := mkState [mkTodo 1 "a" false "d1"; mkTodo 2 "b" true "d2"]
             "all" "" None None in
  let actions := [DeleteTodo 1 1700000000000;
                  HandleAddTodo "c" 1700000000100 7 "d3";
                  UndoCallback true 1700000001000;
                  ReorderTodos [Int 2; Int 1]] in
  exists s',
    run actions s = Some s'
    /\ map id (todos s') = [Int 1700000000107; Int 2; Int 1]
    /\ NoDup (map id (todos s')).
Proof.
  intros s actions.
  destruct (run actions s) as [s'|] eqn:E; [|vm_compute in E; discriminate E].
  exists s'. split; [reflexivity|].
  assert (U : idsUnique s).
  { repeat constructor; simpl; intros H;
      repeat (destruct H as [H|H]; [discriminate H|]); exact H. }
  assert (F : freshAlong actions s).
  { cbn. repeat split. intros _ H.
    repeat (destruct H as [H|H]; [discriminate H|]). exact H. }
  pose proof (run_keeps_ids_unique actions s s' U F E) as [_ H].
  vm_compute in E. injection E as <-. split; [reflexivity|exact H].
Defined.

(** C1 does not hold of the code: [generateId] adds a jitter below 1000
    to the clock, so that two tasks added within a second of each other
    can receive one id.  Here the second task is added 2 ms after the
    first, with jitters 5 and 3. *)
Theorem generateId_collision :
  let actions :=
    [HandleAddTodo "first" 1700000000000 5 "2023-11-14T22:13:20.000Z";
     HandleAddTodo "second" 1700000000002 3 "2023-11-14T22:13:20.002Z"] in
  exists s,
    run actions constructor = Some s
    /\ todos s
       = [mkTodo 1700000000005 "first" false "2023-11-14T22:13:20.000Z";
          mkTodo 1700000000005 "second" false "2023-11-14T22:13:20.002Z"]
    /\ ~ NoDup (map id (todos s)).
Proof.
  intros actions. eexists. split; [reflexivity|]. split; [reflexivity|].
  simpl. intros H. inversion H as [|? ? Hn _]; subst. apply Hn. now left.
Qed.

End IdUniqueness.

(* ================================================================== *)
(** ** Toggling and editing a task that is there *)

Section ToggleEditFacts.
Import TodoApp.

Lemma find_middle {A : Type} (p : A -> bool) (l1 l2 : list A) (x : A) :
  (forall y, In y l1 -> p y = false) -> p x = true ->
  find p (l1 ++ x :: l2) = Some x.
Proof.
  intros H Px. induction l1 as [|y l1 IH]; simpl; [now rewrite Px|].
  rewrite (H y (or_introl eq_refl)). apply IH. intros z Hz. apply H. now right.
Qed.

Lemma updateFirst_middle {A : Type} (p : A -> bool) (f : A -> A)
  (l1 l2 : list A) (x : A) :
  (forall y, In y l1 -> p y = false) -> p x = true ->
  JsArray.updateFirst p f (l1 ++ x :: l2) = l1 ++ f x :: l2.
Proof.
  intros H Px. induction l1 as [|y l1 IH]; simpl; [now rewrite Px|].
  rewrite (H y (or_introl eq_refl)). f_equal. apply IH.
  intros z Hz. apply H. now right.
Qed.

(** A collection that has the id splits at the first task that carries
    it. *)
Lemma first_with_id (l : list Todo) (i : number) :
  In i (map id l) ->
  exists l1 t l2,
    l = l1 ++ t :: l2 /\ (id t === i) = true
    /\ (forall y, In y l1 -> (id y === i) = false).
Proof.
  intros H.
  destruct (findIndex_present _ _ (id_present_index _ _ H))
    as (l1 & t & l2 & Hl & Pt & Hl1 & _).
  exists l1, t, l2. auto.
Qed.

(** X1.  [toggleTodo] on an id of the collection negates [completed] of the
    first task with that id and of no other, keeps every other field and
    the order, then saves and renders the new collection. *)
Theorem toggle_flips_first_match (s : State) (i : number) :
  In i (map id (todos s)) ->
  exists l1 t l2,
    todos s = l1 ++ t :: l2 /\ id t = i /\ (forall y, In y l1 -> id y <> i)
    /\ let s' := set_todos
                   (l1 ++ mkTodo (id t) (text t) (negb (completed t))
                           (createdAt t) :: l2) s in
       toggleTodo i s = (tt, s', [SaveTodos (todos s'); Render (visible s')]).
Proof.
  intros H. destruct (first_with_id _ _ H) as (l1 & t & l2 & Hl & Pt & Hl1).
  exists l1, t, l2. split; [exact Hl|]. split; [now apply number_eqb_eq|].
  split; [intros y Hy; apply number_eqb_neq; now apply Hl1|].
  unfold toggleTodo, bind, get. cbn -[JsArray.updateFirst find].
  rewrite Hl, (find_middle _ l1 l2 t Hl1 Pt).
  cbn -[JsArray.updateFirst]. rewrite (updateFirst_middle _ _ l1 l2 t Hl1 Pt).
  reflexivity.
Qed.

Lemma toggle_flips_first_match_witness :
  let s := mkState [mkTodo 1 "a" false "d1"; mkTodo 2 "b" true "d2";
                    mkTodo 2 "c" true "d3"] "all" "" None None in
  exists l1 t l2,
    todos s = l1 ++ t :: l2 /\ id t = 2 /\ (forall y, In y l1 -> id y <> 2)
    /\ let s' := set_todos
                   (l1 ++ mkTodo (id t) (text t) (negb (completed t))
                           (createdAt t) :: l2) s in
       toggleTodo 2 s = (tt, s', [SaveTodos (todos s'); Render (visible s')]).
Proof.
  intros s. apply (toggle_flips_first_match s 2). simpl. auto.
Defined.

Lemma updateFirst_twice {A : Type} (p : A -> bool) (f : A -> A) (l : list A) :
  (forall x, p (f x) = p x) -> (forall x, f (f x) = x) ->
  JsArray.updateFirst p f (JsArray.updateFirst p f l) = l.
Proof.
  intros Hp Hf. induction l as [|x r IH]; simpl; [reflexivity|].
  destruct (p x) eqn:Px; simpl.
  - now rewrite Hp, Px, Hf.
  - now rewrite Px, IH.
Qed.

Lemma find_updateFirst {A : Type} (p : A -> bool) (f : A -> A) (l : list A) :
  (forall x, p (f x) = p x) ->
  find p (JsArray.updateFirst p f l) = option_map f (find p l).
Proof.
  intros Hp. induction l as [|x r IH]; simpl; [reflexivity|].
  destruct (p x) eqn:Px; simpl.
  - now rewrite Hp, Px.
  - now rewrite Px, IH.
Qed.

(** X2.  Toggling the same id twice gives the state back, whether the id is
    in the collection or not. *)
Theorem toggle_twice_restores (s : State) (i : number) :
  exec (toggleTodo i) (exec (toggleTodo i) s) = s.
Proof.
  set (p := fun t => id t === i).
  set (f := fun todo => set_completed (negb (completed todo)) todo).
  assert (Hp : forall x, p (f x) = p x) by reflexivity.
  assert (Hf : forall x, f (f x) = x).
  { intros [a b c d]. unfold f, set_completed. cbn. now rewrite negb_involutive. }
  assert (E1 : exec (toggleTodo i) s
               = match find p (todos s) with
                 | Some _ => set_todos (JsArray.updateFirst p f (todos s)) s
                 | None => s
                 end).
  { unfold exec, toggleTodo, bind, get. cbn -[JsArray.updateFirst find].
    fold p f. destruct (find p (todos s)); reflexivity. }
  destruct (find p (todos s)) as [t|] eqn:F.
  - rewrite E1. unfold exec, toggleTodo, bind, get.
    cbn -[JsArray.updateFirst find]. fold p f.
    rewrite (find_updateFirst p f _ Hp), F. cbn -[JsArray.updateFirst].
    rewrite (updateFirst_twice p f _ Hp Hf). now destruct s.
  - rewrite E1. unfold exec, toggleTodo, bind, get.
    cbn -[JsArray.updateFirst find]. fold p. rewrite F. reflexivity.
Qed.

(** X3.  [editTodo] on an id of the collection, when the prompt is answered
    with a text that is not blank, gives the first task with that id the
    trimmed answer as its text and changes nothing else; the change is
    saved, rendered and announced. *)
Theorem edit_replaces_text_of_first_match
  (s : State) (i : number) (newText : string) :
  In i (map id (todos s)) ->
  JsString.trim newText <> "" ->
  exists l1 t l2,
    todos s = l1 ++ t :: l2 /\ id t = i /\ (forall y, In y l1 -> id y <> i)
    /\ let s' := set_todos
                   (l1 ++ mkTodo (id t) (JsString.trim newText) (completed t)
                           (createdAt t) :: l2) s in
       editTodo i (Some newText) s
       = (tt, s', [SaveTodos (todos s'); Render (visible s');
                   Toast success MESSAGES.TASK_EDITED]).
Proof.
  intros H Hne. destruct (first_with_id _ _ H) as (l1 & t & l2 & Hl & Pt & Hl1).
  exists l1, t, l2. split; [exact Hl|]. split; [now apply number_eqb_eq|].
  split; [intros y Hy; apply number_eqb_neq; now apply Hl1|].
  apply validateTodoText_spec in Hne.
  unfold editTodo, bind, get. cbn -[JsArray.updateFirst find].
  rewrite Hl, (find_middle _ l1 l2 t Hl1 Pt), Hne.
  cbn -[JsArray.updateFirst]. rewrite (updateFirst_middle _ _ l1 l2 t Hl1 Pt).
  reflexivity.
Qed.

Lemma edit_replaces_text_of_first_match_witness :
  let s := mkState [mkTodo 1 "a" false "d1"; mkTodo 2 "b" true "d2"]
             "all" "" None None in
  exists l1 t l2,
    todos s = l1 ++ t :: l2 /\ id t = 2 /\ (forall y, In y l1 -> id y <> 2)
    /\ let s' := set_todos
                   (l1 ++ mkTodo (id t) "Buy Milk" (completed t)
                           (createdAt t) :: l2) s in
       editTodo 2 (Some "  Buy Milk ") s
       = (tt, s', [SaveTodos (todos s'); Render (visible s');
                   Toast success MESSAGES.TASK_EDITED]).
Proof.
  intros s. apply (edit_replaces_text_of_first_match s 2 "  Buy Milk ").
  - simpl. auto.
  - vm_compute. discriminate.
Defined.

(** X4.  A prompt that is cancelled, or answered with a blank text, leaves the
    state as it was: nothing is saved, rendered or announced, for any id. *)
Theorem edit_cancelled_or_blank_changes_nothing
  (s : State) (i : number) (answer : option string) :
  (forall newText, answer = Some newText -> JsString.trim newText = "") ->
  editTodo i answer s = (tt, s, []).
Proof.
  intros H. unfold editTodo, bind, get. cbn -[find].
  destruct (find (fun t => id t === i) (todos s)); [|reflexivity].
  destruct answer as [newText|]; [|reflexivity].
  destruct (Helpers.validateTodoText newText) eqn:V; [|reflexivity].
  apply validateTodoText_spec in V. now specialize (H newText eq_refl).
Qed.

Lemma edit_cancelled_or_blank_changes_nothing_witness :
  let s := mkState [mkTodo 1 "a" false "d1"] "all" "" None None in
  editTodo 1 (Some "   ") s = (tt, s, []) /\ editTodo 1 None s = (tt, s, []).
Proof.
  intros s. split.
  - apply edit_cancelled_or_blank_changes_nothing.
    intros x E. injection E as <-. reflexivity.
  - apply edit_cancelled_or_blank_changes_nothing. intros x E. discriminate E.
Defined.

End ToggleEditFacts.

(* ================================================================== *)
(** ** Clearing the completed tasks, and the counter *)

Section ClearFacts.
Import TodoApp.

Lemma no_completed_count (l : list Todo) :
  Nat.eqb (List.length (List.filter (fun t => completed t) l)) 0
  = negb (existsb (fun t => completed t) l).
Proof.
  induction l as [|x r IH]; simpl; [reflexivity|].
  destruct (completed x); simpl; [reflexivity|exact IH].
Qed.

Lemma filter_negb_completed_none (l : list Todo) :
  existsb (fun t => completed t) l = false ->
  List.filter (fun t => negb (completed t)) l = l.
Proof.
  induction l as [|x r IH]; simpl; [reflexivity|].
  destruct (completed x); simpl; [discriminate|]. intros H. now rewrite IH.
Qed.

Lemma existsb_filter_negb (l : list Todo) :
  existsb (fun t => completed t)
    (List.filter (fun t => negb (completed t)) l) = false.
Proof.
  induction l as [|x r IH]; simpl; [reflexivity|].
  destruct (completed x) eqn:C; simpl; [exact IH|]. now rewrite C.
Qed.

(** X5.  [clearCompleted], confirmed, on a collection that has a completed
    task: the tasks left are the uncompleted ones in their order, none of
    them is completed, as many tasks are gone as were completed, and the
    result is saved, rendered and announced. *)
Theorem clear_completed_keeps_the_active (s : State) :
  existsb (fun t => completed t) (todos s) = true ->
  let l' := List.filter (fun t => negb (completed t)) (todos s) in
  clearCompleted true s
  = (tt, set_todos l' s,
     [SaveTodos l'; Render (visible (set_todos l' s));
      Toast success MESSAGES.TASKS_CLEARED])
  /\ Forall (fun t => completed t = false) l'
  /\ sublist l' (todos s)
  /\ (List.length l'
      + List.length (List.filter (fun t => completed t) (todos s))
      = List.length (todos s))%nat.
Proof.
  intros H l'. split; [|split; [|split]].
  - unfold clearCompleted, bind, get. cbn -[List.filter Nat.eqb].
    rewrite no_completed_count, H. reflexivity.
  - apply Forall_forall. intros t Ht. apply filter_In in Ht.
    now apply negb_true_iff.
  - apply filter_sublist.
  - unfold l'. clear. induction (todos s) as [|x r IH]; simpl; [reflexivity|].
    destruct (completed x); simpl; lia.
Qed.

Lemma clear_completed_keeps_the_active_witness :
  let s := mkState [mkTodo 1 "a" true "d1"; mkTodo 2 "b" false "d2";
                    mkTodo 3 "c" true "d3"] "all" "" None None in
  todos (exec (clearCompleted true) s) = [mkTodo 2 "b" false "d2"].
Proof.
  intros s.
  assert (H : existsb (fun t => completed t) (todos s) = true) by reflexivity.
  unfold exec.
  rewrite (proj1 (clear_completed_keeps_the_active s H)). reflexivity.
Defined.

(** X6.  [clearCompleted] changes nothing when no task is completed (it then
    only says so in a toast, without asking) or when the confirmation is
    declined (it then does nothing at all). *)
Theorem clear_completed_without_effect (s : State) (confirmed : bool) :
  existsb (fun t => completed t) (todos s) = false \/ confirmed = false ->
  exec (clearCompleted confirmed) s = s
  /\ effects (clearCompleted confirmed) s
     = if existsb (fun t => completed t) (todos s) then []
       else [Toast info MESSAGES.NO_COMPLETED].
Proof.
  intros H. unfold exec, effects, clearCompleted, bind, get.
  cbn -[List.filter Nat.eqb]. rewrite no_completed_count.
  destruct (existsb (fun t => completed t) (todos s)); cbn.
  - destruct H as [H| ->]; [discriminate|]. split; reflexivity.
  - split; reflexivity.
Qed.

Lemma clear_completed_without_effect_witness :
  let s := mkState [mkTodo 1 "a" true "d1"; mkTodo 2 "b" false "d2"]
             "all" "" None None in
  exec (clearCompleted false) s = s /\ effects (clearCompleted false) s = [].
Proof.
  intros s. apply (clear_completed_without_effect s false). now right.
Defined.

(** X7.  After a confirmed [clearCompleted], another one finds nothing to
    clear, whatever the collection was: it shows the toast that says so
    and leaves the state. *)
Theorem clear_completed_twice (s : State) (confirmed : bool) :
  let s1 := exec (clearCompleted true) s in
  clearCompleted confirmed s1 = (tt, s1, [Toast info MESSAGES.NO_COMPLETED]).
Proof.
  intros s1.
  assert (N : existsb (fun t => completed t) (todos s1) = false).
  { unfold s1, exec, clearCompleted, bind, get. cbn -[List.filter Nat.eqb].
    rewrite no_completed_count.
    destruct (existsb (fun t => completed t) (todos s)) eqn:E; cbn -[List.filter].
    - apply existsb_filter_negb.
    - exact E. }
  unfold clearCompleted, bind, get. cbn -[List.filter Nat.eqb].
  rewrite no_completed_count, N. reflexivity.
Qed.

(** X8.  [updateTaskCount] agrees with [clearCompleted] and with the filter:
    the number it shows is the size of the active view and of the
    collection that a confirmed [clearCompleted] leaves, and it disables
    the clear button exactly when [clearCompleted] would find nothing to
    clear. *)
Theorem task_count_agrees_with_clearing (s : State) :
  fst (updateTaskCount s)
  = List.length (todos (exec (clearCompleted true) s))
  /\ fst (updateTaskCount s)
     = List.length (TodoRenderer.filterTodos (todos s) "active" "")
  /\ (snd (updateTaskCount s) = true <->
      forall confirmed,
        clearCompleted confirmed s
        = (tt, s, [Toast info MESSAGES.NO_COMPLETED])).
Proof.
  unfold updateTaskCount. cbn [fst snd]. split; [|split].
  - unfold exec, clearCompleted, bind, get. cbn -[List.filter Nat.eqb].
    rewrite no_completed_count.
    destruct (existsb (fun t => completed t) (todos s)) eqn:E; cbn -[List.filter].
    + reflexivity.
    + now rewrite filter_negb_completed_none.
  - reflexivity.
  - unfold clearCompleted, bind, get. cbn -[List.filter Nat.eqb].
    rewrite no_completed_count.
    destruct (existsb (fun t => completed t) (todos s)); cbn -[List.filter].
    + split; [discriminate|]. intros H. specialize (H false). discriminate H.
    + split; [reflexivity|]. intros _. reflexivity.
Qed.

End ClearFacts.

(* ================================================================== *)
(** ** The undo callback *)

Section UndoFacts.
Import TodoApp.

(** X9.  Whatever the answer and the time, the callback empties the undo slot
    and touches neither filter nor query; it either leaves the collection
    and does nothing else, or - only when confirmed in time, with a task
    in the slot - appends that task, then saves, renders and announces. *)
Theorem undo_callback_outcomes
  (confirmed : bool) (now : Z) (s s' : State) (e : list Effect) :
  undoCallback confirmed now s = Some (tt, s', e) ->
  deletedTodo s' = None /\ deletedTime s' = None
  /\ filter s' = filter s /\ searchQuery s' = searchQuery s
  /\ ((todos s' = todos s /\ e = []
       /\ (confirmed = false
           \/ APP_CONFIG.MAX_UNDO_TIME <= now - toNumber (deletedTime s)))
      \/ exists t,
           deletedTodo s = Some t /\ confirmed = true
           /\ now - toNumber (deletedTime s) < APP_CONFIG.MAX_UNDO_TIME
           /\ todos s' = todos s ++ [t]
           /\ e = [SaveTodos (todos s'); Render (visible s');
                   Toast success MESSAGES.TASK_RESTORED]).
Proof.
  unfold undoCallback. intros H.
  destruct confirmed; cbn [andb] in H.
  - destruct (Z.ltb_spec (now - toNumber (deletedTime s))
                APP_CONFIG.MAX_UNDO_TIME) as [L|L].
    + destruct (deletedTodo s) as [t|] eqn:D; [|discriminate].
      injection H as <- <-. repeat split; try reflexivity.
      right. exists t. repeat split; auto.
    + injection H as <- <-. repeat split; try reflexivity.
      left. repeat split; auto.
  - injection H as <- <-. repeat split; try reflexivity.
    left. repeat split; auto.
Qed.

Lemma undo_callback_outcomes_witness :
  let s := mkState [mkTodo 1 "a" false "d1"] "active" "x"
             (Some (mkTodo 2 "b" true "d2")) (Some 1700000000000) in
  exists s' e,
    undoCallback true 1700000001000 s = Some (tt, s', e)
    /\ deletedTodo s' = None /\ filter s' = "active".
Proof.
  intros s. eexists. eexists. split; [reflexivity|].
  pose proof (undo_callback_outcomes true 1700000001000 s _ _ eq_refl) as H.
  split; [exact (proj1 H)|]. exact (proj1 (proj2 (proj2 H))).
Defined.

(** X10.  A second [deleteTodo] before the first prompt overwrites the undo
    slot: of two tasks deleted one after the other, the confirmed undo
    brings back the second as the last element, the callback of the other
    timer finds the slot empty, and the first task is lost. *)
Theorem second_delete_discards_first_undo
  (s : State) (i j : number) (t1 t2 u1 u2 : Z) :
  In i (map id (todos s)) ->
  In j (map id (todos (exec (deleteTodo i t1) s))) ->
  u1 - t2 < 5000 -> 5000 <= u2 ->
  exists a b s3,
    deletedTodo (exec (deleteTodo i t1) s) = Some a
    /\ id a = i /\ id b = j
    /\ run [DeleteTodo i t1; DeleteTodo j t2;
            UndoCallback true u1; UndoCallback true u2] s = Some s3
    /\ last (todos s3) a = b
    /\ Permutation (a :: todos s3) (todos s)
    /\ S (List.length (todos s3)) = List.length (todos s)
    /\ deletedTodo s3 = None.
Proof.
  intros Hi Hj Hu1 Hu2.
  destruct (findIndex_present _ _ (id_present_index _ _ Hi))
    as (l1 & a & l2 & Hl & Pa & _ & Ia).
  rewrite (deleteTodo_present s i t1 l1 l2 a Hl Ia) in Hj |- *.
  set (s1 := mkState (l1 ++ l2) (filter s) (searchQuery s) (Some a) (Some t1)).
  destruct (findIndex_present _ _ (id_present_index _ _ Hj))
    as (m1 & b & m2 & Hm & Pb & _ & Ib).
  exists a, b.
  exists (mkState ((m1 ++ m2) ++ [b]) (filter s) (searchQuery s) None None).
  split; [reflexivity|]. split; [now apply number_eqb_eq|].
  split; [now apply number_eqb_eq|].
  assert (P : Permutation (a :: (m1 ++ m2) ++ [b]) (todos s)).
  { rewrite Hl. apply Permutation_cons_app.
    cbn [todos] in Hm. rewrite Hm, <- app_assoc.
    apply Permutation_app_head. apply Permutation_sym.
    apply Permutation_cons_append. }
  split; [|split; [apply last_last|split; [exact P|split; [|reflexivity]]]].
  - cbn [run step].
    rewrite (deleteTodo_present s i t1 l1 l2 a Hl Ia). fold s1.
    rewrite (deleteTodo_present s1 j t2 m1 m2 b Hm Ib).
    unfold undoCallback at 1. cbn [deletedTime deletedTodo toNumber andb].
    unfold APP_CONFIG.MAX_UNDO_TIME.
    destruct (Z.ltb_spec (u1 - t2) 5000) as [_|]; [|lia].
    cbn -[Z.ltb Z.sub undoCallback]. unfold undoCallback.
    cbn -[Z.ltb Z.sub]. unfold APP_CONFIG.MAX_UNDO_TIME.
    destruct (Z.ltb_spec (u2 - 0) 5000) as [|_]; [lia|]. reflexivity.
  - apply Permutation_length in P. cbn [todos]. simpl in P. lia.
Qed.

Lemma second_delete_discards_first_undo_witness :
  let s := mkState [mkTodo 1 "a" false "d1"; mkTodo 2 "b" true "d2";
                    mkTodo 3 "c" false "d3"] "all" "" None None in
  exists a b s3,
    deletedTodo (exec (deleteTodo 1 1700000000000) s) = Some a
    /\ id a = 1 /\ id b = 3
    /\ run [DeleteTodo 1 1700000000000; DeleteTodo 3 1700000000400;
            UndoCallback true 1700000001200;
            UndoCallback true 1700000001900] s = Some s3
    /\ last (todos s3) a = b
    /\ Permutation (a :: todos s3) (todos s)
    /\ S (List.length (todos s3)) = List.length (todos s)
    /\ deletedTodo s3 = None.
Proof.
  intros s.
  apply (second_delete_discards_first_undo s 1 3);
    [simpl; auto|simpl; auto|lia|lia].
Defined.

End UndoFacts.

(* ================================================================== *)
(** ** What is saved and what a reload finds *)

Section PersistFacts.
Import TodoApp StorageManager.

Lemma todoJSON_valid (t : Todo) : validTodo (todoJSON t) = true.
Proof. reflexivity. Qed.

Lemma asTodo_todoJSON (t : Todo) : asTodo (todoJSON t) = Some t.
Proof. destruct t. reflexivity. Qed.

Lemma todoJSON_round_trip (l : list Todo) :
  forallb validTodo (map todoJSON l) = true
  /\ asTodos (map todoJSON l) = l.
Proof.
  split.
  - induction l as [|t r IH]; [reflexivity|].
    cbn [map forallb]. now rewrite todoJSON_valid, IH.
  - induction l as [|t r IH]; [reflexivity|].
    cbn [map asTodos]. now rewrite asTodo_todoJSON, IH.
Qed.

Lemma validTodo_reparse_todoJSON (t : Todo) :
  validTodo (reparse (todoJSON t)) = Number.isFinite (id t).
Proof. destruct t as [i tx c d]. destruct i; reflexivity. Qed.

Lemma reparse_todoJSON (t : Todo) :
  Number.isFinite (id t) = true -> reparse (todoJSON t) = todoJSON t.
Proof. destruct t as [i tx c d]. destruct i; (reflexivity || discriminate). Qed.

Lemma reparse_saved (l : list Todo) :
  finiteIds l -> map reparse (map todoJSON l) = map todoJSON l.
Proof.
  induction 1 as [|t r Ht _ IH]; [reflexivity|].
  cbn [map]. now rewrite (reparse_todoJSON t Ht), IH.
Qed.

(** X11.  What [saveToStorage] leaves in storage passes [validateTodos]
    exactly when every id of the collection is finite: an infinite id is
    written as [null], and the stored array is then rejected as a whole.
    When the ids are finite the stored array is read back as the same
    tasks in the same order. *)
Theorem saved_collection_reads_back (l : list Todo) :
  let stored := reparse (JArray (map todoJSON l)) in
  (validateTodos stored = true <-> finiteIds l)
  /\ (finiteIds l ->
      exists items, stored = JArray items /\ asTodos items = l).
Proof.
  cbn zeta. split.
  - cbn [reparse validateTodos]. unfold finiteIds.
    induction l as [|t r IH]; [split; [constructor|reflexivity]|].
    cbn [map forallb]. rewrite andb_true_iff, validTodo_reparse_todoJSON, IH.
    split; [intros [H1 H2]; now constructor|].
    intros H. inversion H; subst. auto.
  - intros F. exists (map todoJSON l). split.
    + cbn [reparse]. now rewrite reparse_saved.
    + apply todoJSON_round_trip.
Qed.

Lemma saved_collection_reads_back_witness :
  let l := [mkTodo 7 "a" false "d1"; mkTodo (Fraction 1 1) "b" true "d2"] in
  exists items,
    reparse (JArray (map todoJSON l)) = JArray items /\ asTodos items = l.
Proof.
  intros l.
  apply (proj2 (saved_collection_reads_back l)).
  repeat constructor.
Defined.

(** X12.  [validateTodos] accepts the arrays of objects that carry a number
    [id], a string [text], a boolean [completed] and a string
    [createdAt], other properties allowed, and nothing else: no value
    that is not an array, no array with a [null], a primitive, an array
    or an object short of one of the four among its elements. *)
Theorem validateTodos_accepts_exactly (data : JSON) :
  validateTodos data = true <->
  exists items,
    data = JArray items
    /\ Forall (fun v =>
                 exists props i t c d,
                   v = JObject props
                   /\ lookup "id" props = Some (JNumber i)
                   /\ lookup "text" props = Some (JString t)
                   /\ lookup "completed" props = Some (JBool c)
                   /\ lookup "createdAt" props = Some (JString d)) items.
Proof.
  split.
  - destruct data as [| | | |items|]; try discriminate. simpl. intros H.
    exists items. split; [reflexivity|]. apply Forall_forall. intros v Hv.
    apply validTodo_true_iff. rewrite forallb_forall in H. now apply H.
  - intros (items & -> & H). simpl. apply forallb_forall. intros v Hv.
    apply validTodo_true_iff. rewrite Forall_forall in H. now apply H.
Qed.

(** The fields of a freshly constructed application. *)
Lemma new_fields (st : Storage) :
  todos (fst (TodoApp.new st))
  = (match load st APP_CONFIG.STORAGE_KEY (JArray []) with
     | JArray items => if forallb validTodo items then asTodos items else []
     | _ => []
     end)
  /\ filter (fst (TodoApp.new st))
     = (match load st APP_CONFIG.FILTER_KEY JNull with
        | JString f => restoredFilter f
        | _ => FILTER_TYPES.ALL
        end)
  /\ searchQuery (fst (TodoApp.new st)) = ""
  /\ deletedTodo (fst (TodoApp.new st)) = None
  /\ deletedTime (fst (TodoApp.new st)) = None.
Proof.
  unfold TodoApp.new, loadFromStorage, bind, restoredFilter.
  destruct (load st APP_CONFIG.STORAGE_KEY (JArray [])) as [| | | |items|];
    cbn [validateTodos];
    try destruct (forallb validTodo items);
    destruct (load st APP_CONFIG.FILTER_KEY JNull) as [| | |f| |];
    try destruct (existsb (String.eqb f) FILTER_TYPES.values);
    repeat split; reflexivity.
Qed.

Lemma new_after_saving_todos (st : Storage) (l : list Todo) :
  finiteIds l ->
  todos (fst (TodoApp.new
                (setItem st APP_CONFIG.STORAGE_KEY (JArray (map todoJSON l)))))
  = l
  /\ filter (fst (TodoApp.new
                    (setItem st APP_CONFIG.STORAGE_KEY
                       (JArray (map todoJSON l)))))
     = filter (fst (TodoApp.new st)).
Proof.
  intros F.
  destruct (new_fields
              (setItem st APP_CONFIG.STORAGE_KEY (JArray (map todoJSON l))))
    as (Ht & Hf & _).
  destruct (new_fields st) as (_ & Hf' & _).
  rewrite Ht, Hf, Hf'. unfold load, setItem.
  cbn -[reparse]. cbn [reparse]. rewrite (reparse_saved l F).
  destruct (todoJSON_round_trip l) as [V R].
  rewrite V, R. split; reflexivity.
Qed.

Lemma new_after_saving_filter (st : Storage) (f : string) :
  todos (fst (TodoApp.new (setItem st APP_CONFIG.FILTER_KEY (JString f))))
  = todos (fst (TodoApp.new st))
  /\ filter (fst (TodoApp.new (setItem st APP_CONFIG.FILTER_KEY (JString f))))
     = restoredFilter f.
Proof.
  destruct (new_fields (setItem st APP_CONFIG.FILTER_KEY (JString f)))
    as (Ht & Hf & _).
  destruct (new_fields st) as (Ht' & _).
  rewrite Ht, Hf, Ht'. unfold load, setItem. cbn. split; reflexivity.
Qed.

(** X13.  The effects of an action and the state it leaves: the last save of
    the tasks carries the collection of the new state and the last render
    its view; an action that saves no tasks leaves the collection, and one
    that renders nothing leaves the view, unless it is a reorder (which
    follows a drop that has already rearranged the list on the page). *)
Theorem saved_and_shown_follow_the_state
  (a : Action) (s s' : State) (e : list Effect) :
  perform a s = Some (s', e) ->
  match lastSaveTodos e with
  | Some l => l = todos s'
  | None => todos s' = todos s
  end
  /\ match lastRender e with
     | Some v => v = visible s'
     | None => visible s' = visible s \/ exists ids, a = ReorderTodos ids
     end.
Proof.
  intros H.
  destruct a as [v now jitter iso|i|i answer|i now|c now|c|ids|f|q];
    cbn [perform] in H.
  - injection H as <- <-. unfold exec, effects, handleAddTodo.
    destruct (Helpers.validateTodoText (JsString.trim v));
      cbn -[TodoRenderer.filterTodos]; split; auto.
  - injection H as <- <-. unfold exec, effects, toggleTodo, bind, get.
    cbn -[TodoRenderer.filterTodos JsArray.updateFirst find].
    destruct (find (fun t => id t === i) (todos s));
      cbn -[TodoRenderer.filterTodos JsArray.updateFirst]; split; auto.
  - injection H as <- <-. unfold exec, effects, editTodo, bind, get.
    cbn -[TodoRenderer.filterTodos JsArray.updateFirst find].
    destruct (find (fun t => id t === i) (todos s));
      [destruct answer as [newText|];
       [destruct (Helpers.validateTodoText newText)|]|];
      cbn -[TodoRenderer.filterTodos JsArray.updateFirst]; split; auto.
  - injection H as <- <-. unfold exec, effects, deleteTodo, bind, get.
    cbn -[TodoRenderer.filterTodos JsArray.findIndex JsArray.splice1
          JsArray.at_index Z.eqb].
    destruct (JsArray.findIndex (fun t => id t === i) (todos s) =? -1);
      cbn -[TodoRenderer.filterTodos JsArray.findIndex JsArray.splice1
            JsArray.at_index]; split; auto.
  - unfold undoCallback in H.
    destruct (c && (now - toNumber (deletedTime s) <? APP_CONFIG.MAX_UNDO_TIME)).
    + destruct (deletedTodo s) as [t|]; [|discriminate].
      cbn -[TodoRenderer.filterTodos] in H. injection H as <- <-.
      cbn -[TodoRenderer.filterTodos]. split; auto.
    + cbn in H. injection H as <- <-. cbn. split; auto.
  - injection H as <- <-. unfold exec, effects, clearCompleted, bind, get.
    cbn -[TodoRenderer.filterTodos List.filter Nat.eqb].
    destruct (Nat.eqb _ 0); [|destruct c];
      cbn -[TodoRenderer.filterTodos List.filter]; split; auto.
  - injection H as <- <-. cbn -[JsArray.sort]. split; eauto.
  - injection H as <- <-. cbn -[TodoRenderer.filterTodos]. split; auto.
  - injection H as <- <-. cbn -[TodoRenderer.filterTodos]. split; auto.
Qed.

Lemma saved_and_shown_follow_the_state_witness :
  let s := mkState [mkTodo 1 "a" false "d1"; mkTodo 2 "b" true "d2"]
             "active" "" None None in
  exists s' e,
    perform (ToggleTodo 1) s = Some (s', e)
    /\ lastSaveTodos e = Some (todos s')
    /\ lastRender e = Some [].
Proof.
  intros s. eexists. eexists. split; [reflexivity|].
  pose proof (saved_and_shown_follow_the_state (ToggleTodo 1) s _ _ eq_refl)
    as [H1 H2].
  split; reflexivity.
Defined.

(** How the saves of an action leave the storage: untouched, with the
    new collection under the key of the tasks, or with the new filter
    under the key of the filter. *)
Lemma perform_store (a : Action) (s s' : State) (e : list Effect) :
  perform a s = Some (s', e) ->
  (todos s' = todos s /\ filter s' = filter s
   /\ forall st, store false e st = st)
  \/ (filter s' = filter s
      /\ forall st, store false e st
                    = setItem st APP_CONFIG.STORAGE_KEY
                        (JArray (map todoJSON (todos s'))))
  \/ (todos s' = todos s
      /\ forall st, store false e st
                    = setItem st APP_CONFIG.FILTER_KEY (JString (filter s'))).
Proof.
  intros H.
  destruct a as [v now jitter iso|i|i answer|i now|c now|c|ids|f|q];
    cbn [perform] in H.
  - injection H as <- <-. unfold exec, effects, handleAddTodo.
    destruct (Helpers.validateTodoText (JsString.trim v));
      cbn -[TodoRenderer.filterTodos]; auto.
  - injection H as <- <-. unfold exec, effects, toggleTodo, bind, get.
    cbn -[TodoRenderer.filterTodos JsArray.updateFirst find].
    destruct (find (fun t => id t === i) (todos s));
      cbn -[TodoRenderer.filterTodos JsArray.updateFirst]; auto.
  - injection H as <- <-. unfold exec, effects, editTodo, bind, get.
    cbn -[TodoRenderer.filterTodos JsArray.updateFirst find].
    destruct (find (fun t => id t === i) (todos s));
      [destruct answer as [newText|];
       [destruct (Helpers.validateTodoText newText)|]|];
      cbn -[TodoRenderer.filterTodos JsArray.updateFirst]; auto.
  - injection H as <- <-. unfold exec, effects, deleteTodo, bind, get.
    cbn -[TodoRenderer.filterTodos JsArray.findIndex JsArray.splice1
          JsArray.at_index Z.eqb].
    destruct (JsArray.findIndex (fun t => id t === i) (todos s) =? -1);
      cbn -[TodoRenderer.filterTodos JsArray.findIndex JsArray.splice1
            JsArray.at_index]; auto.
  - unfold undoCallback in H.
    destruct (c && (now - toNumber (deletedTime s) <? APP_CONFIG.MAX_UNDO_TIME)).
    + destruct (deletedTodo s) as [t|]; [|discriminate].
      cbn -[TodoRenderer.filterTodos] in H. injection H as <- <-.
      cbn -[TodoRenderer.filterTodos]. auto.
    + cbn in H. injection H as <- <-. cbn. auto.
  - injection H as <- <-. unfold exec, effects, clearCompleted, bind, get.
    cbn -[TodoRenderer.filterTodos List.filter Nat.eqb].
    destruct (Nat.eqb _ 0); [|destruct c];
      cbn -[TodoRenderer.filterTodos List.filter]; auto.
  - injection H as <- <-. cbn -[JsArray.sort]. auto.
  - injection H as <- <-. cbn -[TodoRenderer.filterTodos]. auto.
  - injection H as <- <-. cbn -[TodoRenderer.filterTodos]. auto.
Qed.

End PersistFacts.

(* ================================================================== *)
(** ** Blank texts and letter case *)

Section InkFacts.
Import JsString.

Lemma hasInk_cons (c : ascii) (r : string) :
  hasInk (String c r) <-> isWhiteSpace c = false \/ hasInk r.
Proof.
  unfold hasInk. simpl. split.
  - intros (x & [<-|Hx] & W); [now left|right; eauto].
  - intros [W | (x & Hx & W)]; [exists c; auto|exists x; auto].
Qed.

Lemma hasInk_empty : ~ hasInk EmptyString.
Proof. intros (x & [] & _). Qed.

Lemma hasInk_dec (s : string) : hasInk s \/ ~ hasInk s.
Proof.
  induction s as [|c r IH]; [right; apply hasInk_empty|].
  destruct (isWhiteSpace c) eqn:W.
  - destruct IH as [H|H]; [left|right]; rewrite hasInk_cons.
    + now right.
    + intros [X|X]; [congruence|contradiction].
  - left. apply hasInk_cons. now left.
Qed.

Lemma trimStart_ink (s : string) : hasInk (trimStart s) <-> hasInk s.
Proof.
  induction s as [|c r IH]; simpl; [reflexivity|].
  destruct (isWhiteSpace c) eqn:W; [|reflexivity].
  rewrite IH, hasInk_cons. split; [now right|].
  intros [X|X]; [congruence|exact X].
Qed.

Lemma trimEnd_empty_iff (s : string) : trimEnd s = EmptyString <-> ~ hasInk s.
Proof.
  induction s as [|c r IH]; [split; [intros _; apply hasInk_empty|reflexivity]|].
  rewrite trimEnd_unfold, hasInk_cons.
  destruct (trimEnd r) as [|c' r'] eqn:E.
  - destruct (isWhiteSpace c) eqn:W.
    + split; [|reflexivity]. intros _ [X|X]; [congruence|].
      now apply (proj1 IH).
    + split; [discriminate|]. intros H. exfalso. apply H. now left.
  - split; [discriminate|]. intros H. exfalso.
    assert (X : ~ hasInk r) by (intros X; apply H; now right).
    apply IH in X. discriminate X.
Qed.

Lemma trim_empty_iff (s : string) : trim s = EmptyString <-> ~ hasInk s.
Proof. unfold trim. now rewrite trimEnd_empty_iff, trimStart_ink. Qed.

(** X15.  [validateTodoText] accepts the texts that have a character other
    than white space, and only those. *)
Theorem validateTodoText_iff_ink (s : string) :
  Helpers.validateTodoText s = true <-> hasInk s.
Proof.
  rewrite validateTodoText_spec, trim_empty_iff.
  destruct (hasInk_dec s); tauto.
Qed.

Lemma toLowerChar_white (c : ascii) :
  isWhiteSpace (toLowerChar c) = isWhiteSpace c.
Proof.
  destruct c as [[] [] [] [] [] [] [] []]; reflexivity.
Qed.

Lemma toLowerChar_idempotent (c : ascii) :
  toLowerChar (toLowerChar c) = toLowerChar c.
Proof.
  destruct c as [[] [] [] [] [] [] [] []]; reflexivity.
Qed.

Lemma toLowerCase_idempotent (s : string) :
  toLowerCase (toLowerCase s) = toLowerCase s.
Proof.
  induction s as [|c r IH]; simpl; [reflexivity|].
  now rewrite toLowerChar_idempotent, IH.
Qed.

Lemma toLowerCase_ink (s : string) : hasInk (toLowerCase s) <-> hasInk s.
Proof.
  induction s as [|c r IH]; simpl; [reflexivity|].
  now rewrite !hasInk_cons, toLowerChar_white, IH.
Qed.

Lemma trim_blank_by_case (q1 q2 : string) :
  toLowerCase q1 = toLowerCase q2 ->
  (trim q1 =? "")%string = (trim q2 =? "")%string.
Proof.
  intros H.
  assert (E : trim q1 = "" <-> trim q2 = "").
  { rewrite !trim_empty_iff, <- (toLowerCase_ink q1), <- (toLowerCase_ink q2), H.
    reflexivity. }
  destruct (String.eqb_spec (trim q1) ""), (String.eqb_spec (trim q2) "");
    tauto.
Qed.

(** X16.  The search ignores the case of the query: two queries that are the
    same once lower-cased show the same tasks; so the lower-cased query
    shows what the query shows. *)
Theorem search_ignores_case_of_query (l : list Todo) (f q1 q2 : string) :
  toLowerCase q1 = toLowerCase q2 ->
  TodoRenderer.filterTodos l f q1 = TodoRenderer.filterTodos l f q2.
Proof.
  intros H. unfold TodoRenderer.filterTodos.
  now rewrite (trim_blank_by_case q1 q2 H), H.
Qed.

Lemma search_ignores_case_of_query_witness :
  let l := [mkTodo 1 "Buy Milk" false "d1"; mkTodo 2 "Call Bob" false "d2"] in
  TodoRenderer.filterTodos l "all" "MILK" = TodoRenderer.filterTodos l "all" "milk"
  /\ TodoRenderer.filterTodos l "all" "milk" = [mkTodo 1 "Buy Milk" false "d1"].
Proof.
  intros l. split; [|reflexivity].
  apply search_ignores_case_of_query. reflexivity.
Defined.

(** X17.  A query without a character other than white space - the empty query
    that [closeSearchBar] sets, or spaces only - switches the search off:
    the view holds every task that the filter lets through. *)
Theorem blank_query_hides_nothing (l : list Todo) (f q : string) (s : TodoApp.State) :
  ~ hasInk q ->
  TodoRenderer.filterTodos l f q = List.filter (matchesFilter f) l
  /\ visible (TodoApp.exec TodoApp.closeSearchBar s)
     = List.filter (matchesFilter (TodoApp.filter s)) (TodoApp.todos s)
  /\ TodoApp.todos (TodoApp.exec TodoApp.closeSearchBar s) = TodoApp.todos s.
Proof.
  intros H. apply trim_empty_iff in H.
  assert (G : forall l f q, trim q = "" ->
              TodoRenderer.filterTodos l f q = List.filter (matchesFilter f) l).
  { clear. intros l f q H. rewrite filterTodos_one_filter.
    apply filter_ext. intros t. unfold matchesSearch. now rewrite H. }
  split; [now apply G|]. split; [|reflexivity].
  unfold visible. cbn [TodoApp.exec]. now apply G.
Qed.

Lemma blank_query_hides_nothing_witness :
  let l := [mkTodo 1 "a" false "d1"; mkTodo 2 "b" true "d2"] in
  TodoRenderer.filterTodos l "completed" "   " = [mkTodo 2 "b" true "d2"].
Proof.
  intros l.
  assert (H : ~ hasInk "   ").
  { intros (c & Hc & W). cbn in Hc.
    destruct Hc as [<-|[<-|[<-|[]]]]; discriminate W. }
  rewrite (proj1 (blank_query_hides_nothing l "completed" "   "
                    TodoApp.constructor H)).
  reflexivity.
Defined.

End InkFacts.

(* ================================================================== *)
(** ** Views and drops *)

Section ViewFacts.
Import TodoApp.

Lemma filter_split_perm {A : Type} (f : A -> bool) (l : list A) :
  Permutation (List.filter f l ++ List.filter (fun x => negb (f x)) l) l.
Proof.
  induction l as [|x r IH]; simpl; [constructor|].
  destruct (f x); simpl.
  - now constructor.
  - eapply Permutation_trans; [apply Permutation_sym, Permutation_middle|].
    now constructor.
Qed.

(** X18.  Under one query, the active view holds no completed task, the
    completed view holds only completed tasks, and the two together are
    the view of any other filter name ([all]): each task that passes the
    search is in exactly one of them. *)
Theorem active_and_completed_split_the_view (l : list Todo) (f q : string) :
  (f =? "active")%string = false ->
  (f =? "completed")%string = false ->
  let active := TodoRenderer.filterTodos l "active" q in
  let done := TodoRenderer.filterTodos l "completed" q in
  Forall (fun t => completed t = false) active
  /\ Forall (fun t => completed t = true) done
  /\ Permutation (done ++ active) (TodoRenderer.filterTodos l f q)
  /\ (List.length active + List.length done
      = List.length (TodoRenderer.filterTodos l f q))%nat.
Proof.
  intros Fa Fc active done.
  assert (Ea : active
               = List.filter (fun t => negb (completed t))
                   (List.filter (matchesSearch q) l)).
  { unfold active. rewrite filterTodos_one_filter, filter_and. reflexivity. }
  assert (Ed : done
               = List.filter (fun t => completed t)
                   (List.filter (matchesSearch q) l)).
  { unfold done. rewrite filterTodos_one_filter, filter_and. reflexivity. }
  assert (Ef : TodoRenderer.filterTodos l f q = List.filter (matchesSearch q) l).
  { rewrite filterTodos_one_filter. apply filter_ext. intros t.
    unfold matchesFilter. rewrite Fa, Fc. apply andb_true_r. }
  assert (P : Permutation (done ++ active) (TodoRenderer.filterTodos l f q)).
  { rewrite Ea, Ed, Ef. apply filter_split_perm. }
  split; [|split; [|split; [exact P|]]].
  - rewrite Ea. apply Forall_forall. intros t Ht. apply filter_In in Ht.
    now apply negb_true_iff.
  - rewrite Ed. apply Forall_forall. intros t Ht. apply filter_In in Ht. tauto.
  - apply Permutation_length in P. rewrite length_app in P. lia.
Qed.

Lemma active_and_completed_split_the_view_witness :
  let l := [mkTodo 1 "Buy Milk" false "d1"; mkTodo 2 "milk the cow" true "d2";
            mkTodo 3 "Call Bob" false "d3"] in
  Permutation
    (TodoRenderer.filterTodos l "completed" "milk"
     ++ TodoRenderer.filterTodos l "active" "milk")
    (TodoRenderer.filterTodos l "all" "milk").
Proof.
  intros l.
  exact (proj1 (proj2 (proj2
           (active_and_completed_split_the_view l "all" "milk"
              eq_refl eq_refl)))).
Defined.

Lemma NoDup_map_injective {A B : Type} (g : A -> B) (l : list A) (x y : A) :
  NoDup (map g l) -> In x l -> In y l -> g x = g y -> x = y.
Proof.
  induction l as [|a r IH]; simpl; [intros _ []|].
  intros N Hx Hy E. inversion N as [|? ? Ha N']; subst.
  destruct Hx as [<-|Hx], Hy as [<-|Hy]; auto.
  - exfalso. apply Ha. rewrite E. now apply in_map.
  - exfalso. apply Ha. rewrite <- E. now apply in_map.
Qed.

Lemma filter_none {A : Type} (f : A -> bool) (l : list A) :
  List.filter f (List.filter (fun x => negb (f x)) l) = [].
Proof.
  induction l as [|x r IH]; simpl; [reflexivity|].
  destruct (f x) eqn:E; simpl; [exact IH|]. now rewrite E.
Qed.

Lemma filter_Forall_id {A : Type} (f : A -> bool) (l : list A) :
  Forall (fun x => f x = true) l -> List.filter f l = l.
Proof.
  induction 1 as [|x r Hx _ IH]; simpl; [reflexivity|]. now rewrite Hx, IH.
Qed.

(** X19.  A drop on the rendered list.  The handler passes the ids of the
    rendered items in their new order, a rearrangement of the ids of the
    visible tasks.  When the ids of the collection are distinct,
    [reorderTodos] then puts the hidden tasks first, in the order they
    had, and the visible tasks after them in the order of the drop, so
    that the next render shows the order of the drop. *)
Theorem drop_order_is_the_shown_order (s : State) (orderedIds : list number) :
  NoDup (map id (todos s)) ->
  Permutation orderedIds (map id (visible s)) ->
  let s' := exec (reorderTodos orderedIds) s in
  map id (visible s') = orderedIds
  /\ todos s'
     = List.filter
         (fun t => negb (matchesSearch (searchQuery s) t
                         && matchesFilter (filter s) t)) (todos s)
       ++ visible s'.
Proof.
  intros N P s'.
  set (Pv := fun t => matchesSearch (searchQuery s) t
                      && matchesFilter (filter s) t).
  assert (Ev : visible s = List.filter Pv (todos s))
    by apply filterTodos_one_filter.
  assert (R : forall t, In t (todos s) -> recognized orderedIds t = Pv t).
  { intros t Ht. unfold recognized.
    destruct (Pv t) eqn:E.
    - apply existsb_exists. exists (id t). split; [|apply number_eqb_refl].
      eapply Permutation_in; [apply Permutation_sym, P|].
      rewrite Ev. apply in_map. apply filter_In. auto.
    - destruct (existsb (Number.eqb (id t)) orderedIds) eqn:X; [|reflexivity].
      apply existsb_exists in X. destruct X as (x & Hx & Ex).
      apply number_eqb_eq in Ex. subst x.
      assert (Hin : In (id t) (map id (visible s)))
        by (eapply Permutation_in; eassumption).
      rewrite Ev in Hin. apply in_map_iff in Hin.
      destruct Hin as (t' & Eid & Ht'). apply filter_In in Ht'.
      destruct Ht' as [Ht' Pt'].
      assert (t' = t) by (eapply NoDup_map_injective; eauto).
      subst t'. congruence. }
  assert (Es : todos s'
               = List.filter (fun t => negb (Pv t)) (todos s)
                 ++ JsArray.sort (byKey (position orderedIds))
                      (List.filter Pv (todos s))).
  { unfold s'. rewrite reorderTodos_sort.
    rewrite (sort_least_first (position orderedIds) (-1)
               (position_lower orderedIds)).
    f_equal.
    - apply filter_ext_in. intros t Ht.
      rewrite position_recognized. now rewrite R.
    - f_equal. apply filter_ext_in. intros t Ht.
      rewrite position_recognized, negb_involutive. now apply R. }
  assert (Fs : Forall (fun t => Pv t = true)
                 (JsArray.sort (byKey (position orderedIds))
                    (List.filter Pv (todos s)))).
  { eapply Permutation_Forall; [apply Permutation_sym, sort_perm|].
    apply Forall_forall. intros t Ht. apply filter_In in Ht. tauto. }
  assert (Ev' : visible s'
                = JsArray.sort (byKey (position orderedIds))
                    (List.filter Pv (todos s))).
  { unfold visible. rewrite filterTodos_one_filter.
    change (filter s') with (filter s).
    change (searchQuery s') with (searchQuery s). fold Pv.
    rewrite Es, filter_app, filter_none, (filter_Forall_id _ _ Fs).
    reflexivity. }
  split.
  - rewrite Ev'. apply sorted_by_position_unique.
    + eapply Permutation_NoDup; [apply Permutation_sym, P|].
      rewrite Ev. pose proof (NoDup_ids_filter Pv (todos s) []) as X.
      rewrite !app_nil_r in X. now apply X.
    + eapply Permutation_trans;
        [apply Permutation_map, sort_perm|].
      rewrite <- Ev. now apply Permutation_sym.
    + apply StronglySorted_map_id, sort_sorted.
  - rewrite Ev'. exact Es.
Qed.

Lemma drop_order_is_the_shown_order_witness :
  let s := mkState [mkTodo 1 "a" false "d1"; mkTodo 2 "b" true "d2";
                    mkTodo 3 "c" false "d3"] "active" "" None None in
  map id (visible (exec (reorderTodos [Int 3; Int 1]) s)) = [Int 3; Int 1]
  /\ map id (todos (exec (reorderTodos [Int 3; Int 1]) s)) = [Int 2; Int 3; Int 1].
Proof.
  intros s. split; [|reflexivity].
  refine (proj1 (drop_order_is_the_shown_order s [Int 3; Int 1] _ _)).
  - repeat constructor; simpl; intros H;
      repeat (destruct H as [H|H]; [discriminate H|]); exact H.
  - apply perm_swap.
Defined.

End ViewFacts.

(* ================================================================== *)
(** ** What a run keeps *)

Section RunFacts.
Import TodoApp.

Lemma Forall_updateFirst {A : Type} (P : A -> Prop) (p : A -> bool)
  (f : A -> A) (l : list A) :
  (forall x, P x -> P (f x)) -> Forall P l ->
  Forall P (JsArray.updateFirst p f l).
Proof.
  intros Hf. induction 1 as [|x r Hx Hr IH]; simpl; [constructor|].
  destruct (p x); constructor; auto.
Qed.

Lemma held_split (s : State) (P : Todo -> Prop) :
  Forall P (held s) <->
  Forall P (todos s)
  /\ (forall t, deletedTodo s = Some t -> P t).
Proof.
  unfold held. rewrite Forall_app. destruct (deletedTodo s) as [t|].
  - split.
    + intros [H1 H2]. split; [exact H1|]. intros t' E. injection E as <-.
      now inversion H2.
    + intros [H1 H2]. split; [exact H1|]. constructor; [now apply H2|constructor].
  - split.
    + intros [H1 _]. split; [exact H1|]. discriminate.
    + intros [H1 _]. split; [exact H1|constructor].
Qed.

Lemma step_keeps_texts (a : Action) (s s' : State) :
  Forall textStored (held s) -> step a s = Some s' ->
  Forall textStored (held s').
Proof.
  intros F St. apply held_split in F. destruct F as [Ft Fd].
  apply held_split.
  destruct a as [v now jitter iso|i|i answer|i now|c now|c|ids|f|q];
    cbn [step] in St.
  - injection St as <-. unfold exec, handleAddTodo.
    destruct (Helpers.validateTodoText (JsString.trim v)) eqn:V; cbn;
      [|split; assumption].
    split; [|assumption]. apply Forall_app. split; [assumption|].
    constructor; [|constructor]. split; cbn.
    + apply trim_idempotent.
    + rewrite validateTodoText_trim in V. now apply validateTodoText_spec.
  - injection St as <-. unfold exec, toggleTodo, bind, get.
    cbn -[JsArray.updateFirst find].
    destruct (find (fun t => id t === i) (todos s));
      cbn -[JsArray.updateFirst]; split; try assumption.
    apply Forall_updateFirst; [|assumption]. intros x Hx. exact Hx.
  - injection St as <-. unfold exec, editTodo, bind, get.
    cbn -[JsArray.updateFirst find].
    destruct (find (fun t => id t === i) (todos s));
      [destruct answer as [newText|];
       [destruct (Helpers.validateTodoText newText) eqn:V|]|];
      cbn -[JsArray.updateFirst]; split; try assumption.
    apply Forall_updateFirst; [|assumption]. intros x _.
    split; cbn; [apply trim_idempotent|now apply validateTodoText_spec].
  - injection St as <-.
    destruct (Z.eq_dec (JsArray.findIndex (fun t => id t === i) (todos s)) (-1))
      as [E|E].
    + unfold exec, deleteTodo, bind, get. cbn. rewrite E. cbn.
      split; assumption.
    + destruct (findIndex_present _ _ E) as (l1 & t & l2 & Hl & _ & _ & Hi).
      rewrite (deleteTodo_present s i now l1 l2 t Hl Hi). cbn.
      rewrite Hl in Ft. apply Forall_app in Ft. destruct Ft as [F1 F2].
      inversion F2 as [|? ? Hx F2']; subst. split.
      * apply Forall_app. auto.
      * intros t' Et. injection Et as <-. exact Hx.
  - unfold undoCallback in St.
    destruct (c && (now - toNumber (deletedTime s) <? APP_CONFIG.MAX_UNDO_TIME)).
    + destruct (deletedTodo s) as [t|] eqn:D; [|discriminate].
      injection St as <-. cbn. split; [|discriminate].
      apply Forall_app. split; [assumption|].
      constructor; [now apply Fd|constructor].
    + injection St as <-. cbn. split; [assumption|discriminate].
  - injection St as <-. unfold exec, clearCompleted, bind, get.
    cbn -[List.filter Nat.eqb].
    destruct (Nat.eqb _ 0); [|destruct c]; cbn -[List.filter];
      split; try assumption.
    apply Forall_forall. intros t Ht. apply filter_In in Ht.
    rewrite Forall_forall in Ft. now apply Ft.
  - injection St as <-. cbn -[JsArray.sort]. split; [|assumption].
    eapply Permutation_Forall; [apply Permutation_sym, sort_perm|assumption].
  - injection St as <-. split; assumption.
  - injection St as <-. split; assumption.
Qed.

(** X20.  No run stores a blank text.  From a state whose tasks (the undo slot
    included) carry trimmed, non-empty texts - the empty collection of the
    constructor for one - every run ends in such a state: texts enter only
    through [handleAddTodo] and [editTodo], which trim and refuse blanks. *)
Theorem run_keeps_texts_trimmed (actions : list Action) (s s' : State) :
  Forall textStored (held s) -> run actions s = Some s' ->
  Forall textStored (todos s')
  /\ Forall (fun t => Helpers.validateTodoText (text t) = true) (todos s').
Proof.
  intros F R.
  assert (H : Forall textStored (held s')).
  { revert s F R. induction actions as [|a r IH]; intros s F R; cbn in R.
    - now injection R as <-.
    - destruct (step a s) as [s1|] eqn:St; [|discriminate].
      apply (IH s1); [|exact R]. exact (step_keeps_texts a s s1 F St). }
  apply held_split in H. destruct H as [H _]. split; [exact H|].
  eapply Forall_impl; [|exact H]. intros t [Ht Hn].
  apply validateTodoText_spec. now rewrite Ht.
Qed.

Lemma run_keeps_texts_trimmed_witness :
  let actions :=
    [HandleAddTodo "  Buy Milk " 1700000000000 5 "d1";
     HandleAddTodo "   " 1700000001000 6 "d2";
     EditTodo 1700000000005 (Some " Buy bread  ");
     EditTodo 1700000000005 (Some "  ")] in
  exists s',
    run actions constructor = Some s'
    /\ map text (todos s') = ["Buy bread"]
    /\ Forall textStored (todos s').
Proof.
  intros actions.
  destruct (run actions constructor) as [s'|] eqn:E;
    [|vm_compute in E; discriminate E].
  exists s'. split; [reflexivity|].
  pose proof (run_keeps_texts_trimmed actions constructor s'
                (Forall_nil _) E) as [H _].
  vm_compute in E. injection E as <-. split; [reflexivity|exact H].
Defined.

(** The ids held after a step were held before it, but for the id that an
    add draws. *)
Lemma step_ids_from (a : Action) (s s' : State) (x : number) :
  step a s = Some s' -> In x (map id (held s')) ->
  In x (map id (held s))
  \/ exists v now jitter iso,
       a = HandleAddTodo v now jitter iso /\ x = Helpers.generateId now jitter.
Proof.
  unfold held. intros St Hx.
  destruct a as [v now jitter iso|i|i answer|i now|c now|c|ids|f|q];
    cbn [step] in St.
  - injection St as <-. unfold exec, handleAddTodo in Hx.
    destruct (Helpers.validateTodoText (JsString.trim v)); cbn in Hx;
      [|now left].
    rewrite !map_app, !in_app_iff in Hx. cbn in Hx.
    destruct Hx as [[Hx|[Hx|[]]]|Hx].
    + left. rewrite map_app, in_app_iff. now left.
    + right. exists v, now, jitter, iso. auto.
    + left. rewrite map_app, in_app_iff. now right.
  - injection St as <-. left. revert Hx.
    unfold exec, toggleTodo, bind, get. cbn -[JsArray.updateFirst find].
    destruct (find (fun t => id t === i) (todos s));
      cbn -[JsArray.updateFirst]; [|auto].
    rewrite !map_app, updateFirst_ids by reflexivity. auto.
  - injection St as <-. left. revert Hx.
    unfold exec, editTodo, bind, get. cbn -[JsArray.updateFirst find].
    destruct (find (fun t => id t === i) (todos s));
      [destruct answer as [newText|];
       [destruct (Helpers.validateTodoText newText)|]|];
      cbn -[JsArray.updateFirst]; auto.
    rewrite !map_app, updateFirst_ids by reflexivity. auto.
  - injection St as <-. left.
    destruct (Z.eq_dec (JsArray.findIndex (fun t => id t === i) (todos s)) (-1))
      as [E|E].
    + revert Hx. unfold exec, deleteTodo, bind, get. cbn. rewrite E. auto.
    + destruct (findIndex_present _ _ E) as (l1 & t & l2 & Hl & _ & _ & Hi).
      rewrite (deleteTodo_present s i now l1 l2 t Hl Hi) in Hx. cbn in Hx.
      rewrite Hl. rewrite !map_app, !in_app_iff in *. cbn in *.
      rewrite ?in_app_iff in *. tauto.
  - left. unfold undoCallback in St.
    destruct (c && (now - toNumber (deletedTime s) <? APP_CONFIG.MAX_UNDO_TIME)).
    + destruct (deletedTodo s) as [t|]; [|discriminate].
      injection St as <-. cbn in Hx. now rewrite app_nil_r in Hx.
    + injection St as <-. cbn in Hx. rewrite app_nil_r in Hx.
      rewrite map_app, in_app_iff. now left.
  - injection St as <-. left. revert Hx.
    unfold exec, clearCompleted, bind, get. cbn -[List.filter Nat.eqb].
    destruct (Nat.eqb _ 0); [|destruct c]; cbn -[List.filter]; auto.
    rewrite !map_app, !in_app_iff. intros [Hx|Hx]; [left|now right].
    apply in_map_iff in Hx. destruct Hx as (t & <- & Ht).
    apply filter_In in Ht. apply in_map. tauto.
  - injection St as <-. left. cbn -[JsArray.sort] in Hx.
    rewrite !map_app, !in_app_iff in *. destruct Hx as [Hx|Hx]; [left|now right].
    eapply Permutation_in; [apply Permutation_map, sort_perm|exact Hx].
  - injection St as <-. now left.
  - injection St as <-. now left.
Qed.

(** A step that is no add keeps an upper bound of the held ids. *)
Ltac keep_bound IH last s1 U B Sp R St :=
  apply (IH last s1);
  [eapply step_keeps_ids_unique; [exact U| |exact St]; exact I
  | | exact Sp | exact R];
  apply Forall_forall; intros ?x ?Hx;
  match goal with
  | Hx : In ?x _ |- _ =>
      destruct (step_ids_from _ _ s1 x St Hx)
        as [?Hin|(? & ? & ? & ? & ?E & _)];
      [now apply B|discriminate]
  end.

Lemma spaced_run_inv (actions : list Action) (last : Z) (s s' : State) :
  idsUnique s ->
  Forall (fun x => exists z, x = Int z /\ z < last + 1000) (map id (held s)) ->
  spacedAdds last actions -> run actions s = Some s' -> idsUnique s'.
Proof.
  revert last s. induction actions as [|a r IH]; intros last s U B Sp R;
    cbn in R.
  - now injection R as <-.
  - destruct (step a s) as [s1|] eqn:St; [|discriminate].
    rewrite Forall_forall in B.
    destruct a as [v now jitter iso|i|i answer|i now|c now|c|ids|f|q];
      cbn [spacedAdds] in Sp;
      [|keep_bound IH last s1 U B Sp R St ..].
    destruct Sp as (Hl & Hj & Sp).
    apply (IH now s1); [| |exact Sp|exact R].
    + eapply step_keeps_ids_unique; [exact U| |exact St].
      cbn. intros _ Hin. destruct (B _ Hin) as (z & E & Hz).
      injection E as E. unfold Helpers.generateId in E. lia.
    + apply Forall_forall. intros x Hx.
      destruct (step_ids_from _ s s1 x St Hx)
        as [Hin|(? & ? & ? & ? & E & ->)].
      * destruct (B _ Hin) as (z & -> & Hz). exists z. split; [reflexivity|lia].
      * injection E as _ <- <- _. eexists. split; [reflexivity|].
        unfold Helpers.generateId. lia.
Qed.

(** X22.  Ids are distinct when the adds are far enough apart.  In a run from
    the empty collection in which each add happens at least 1000 ms after
    the one before (the clock not going back, the jitter within its 0 to
    999), no two tasks of the collection carry one id. *)
Theorem ids_unique_when_adds_a_second_apart
  (actions : list Action) (last : Z) (s' : State) :
  spacedAdds last actions ->
  run actions constructor = Some s' ->
  NoDup (map id (todos s')).
Proof.
  intros Sp R.
  assert (U : idsUnique s').
  { apply (spaced_run_inv actions last constructor s'); auto; constructor. }
  unfold idsUnique, held in U. rewrite map_app in U.
  exact (NoDup_app_remove_r _ _ U).
Qed.

Lemma ids_unique_when_adds_a_second_apart_witness :
  let actions :=
    [HandleAddTodo "first" 1700000000000 999 "d1";
     HandleAddTodo "second" 1700000001000 0 "d2";
     DeleteTodo 1700000000999 1700000001500;
     UndoCallback true 1700000002600] in
  exists s',
    run actions constructor = Some s'
    /\ map id (todos s') = [Int 1700000001000; Int 1700000000999]
    /\ NoDup (map id (todos s')).
Proof.
  intros actions.
  destruct (run actions constructor) as [s'|] eqn:E;
    [|vm_compute in E; discriminate E].
  exists s'. split; [reflexivity|].
  assert (Sp : spacedAdds 0 actions) by (cbn; lia).
  pose proof (ids_unique_when_adds_a_second_apart actions 0 s' Sp E) as H.
  vm_compute in E. injection E as <-. split; [reflexivity|exact H].
Defined.

End RunFacts.

(* ================================================================== *)
(** ** Reloading *)

Section ReloadFacts.
Import TodoApp StorageManager.

Lemma perform_step (a : Action) (s s' : State) (e : list Effect) :
  perform a s = Some (s', e) -> step a s = Some s'.
Proof.
  destruct a; cbn [perform step]; try (now intros [= <- _]).
  destruct (undoCallback confirmed now s) as [[[u s1] e1]|];
    [now intros [= <- _]|discriminate].
Qed.

Lemma step_keeps_ids_finite (a : Action) (s s' : State) :
  finiteIds (held s) -> step a s = Some s' -> finiteIds (held s').
Proof.
  unfold finiteIds. intros F St. apply Forall_forall. intros t Ht.
  destruct (step_ids_from a s s' (id t) St (in_map id _ _ Ht))
    as [Hin|(v & now & jitter & iso & _ & ->)]; [|reflexivity].
  apply in_map_iff in Hin. destruct Hin as (t0 & <- & Ht0).
  rewrite Forall_forall in F. now apply F.
Qed.

Lemma finiteIds_held (s : State) : finiteIds (held s) -> finiteIds (todos s).
Proof. unfold finiteIds, held. rewrite Forall_app. tauto. Qed.

Lemma session_keeps_reload (actions : list Action) (s s' : State)
  (st st' : Storage) :
  finiteIds (held s) ->
  todos (fst (TodoApp.new st)) = todos s ->
  filter (fst (TodoApp.new st)) = restoredFilter (filter s) ->
  session false actions s st = Some (s', st') ->
  todos (fst (TodoApp.new st')) = todos s'
  /\ filter (fst (TodoApp.new st')) = restoredFilter (filter s').
Proof.
  revert s st. induction actions as [|a r IH]; intros s st F Ht Hf H;
    cbn in H.
  - injection H as <- <-. auto.
  - destruct (perform a s) as [[s1 e]|] eqn:P; [|discriminate].
    pose proof (step_keeps_ids_finite a s s1 F (perform_step a s s1 e P)) as F1.
    pose proof (finiteIds_held s1 F1) as Ft1.
    apply (IH s1 (store false e st)); [exact F1| | |exact H];
      destruct (perform_store a s s1 e P)
        as [(Et & Ef & Es) | [(Ef & Es) | (Et & Es)]]; rewrite Es.
    + congruence.
    + now apply new_after_saving_todos.
    + rewrite (proj1 (new_after_saving_filter st (filter s1))). congruence.
    + congruence.
    + rewrite (proj2 (new_after_saving_todos st (todos s1) Ft1)). congruence.
    + apply new_after_saving_filter.
Qed.

Lemma restoredFilter_idempotent (f : string) :
  restoredFilter (restoredFilter f) = restoredFilter f.
Proof.
  unfold restoredFilter.
  destruct (existsb (String.eqb f) FILTER_TYPES.values) eqn:E;
    [now rewrite E|reflexivity].
Qed.

(** X14.  Reloading after a session in which the writes succeed.  When the
    collection that the application loaded at its start has finite ids
    only (as every collection has that the application itself built up
    from nothing), a new application built on the storage the session
    leaves holds the same collection (tasks, order, fields) as the one in
    memory, and the same filter when that is one of the three names
    ([all] otherwise); the search query and the undo slot start empty. *)
Theorem reload_restores_the_collection
  (st st' : Storage) (actions : list Action) (s' : State) :
  finiteIds (todos (fst (TodoApp.new st))) ->
  session false actions (fst (TodoApp.new st)) st = Some (s', st') ->
  todos (fst (TodoApp.new st')) = todos s'
  /\ filter (fst (TodoApp.new st')) = restoredFilter (filter s')
  /\ searchQuery (fst (TodoApp.new st')) = ""
  /\ deletedTodo (fst (TodoApp.new st')) = None.
Proof.
  intros Fin H.
  assert (F : filter (fst (TodoApp.new st))
              = restoredFilter (filter (fst (TodoApp.new st)))).
  { destruct (new_fields st) as (_ & -> & _).
    destruct (load st APP_CONFIG.FILTER_KEY JNull);
      try reflexivity. symmetry. apply restoredFilter_idempotent. }
  assert (Fh : finiteIds (held (fst (TodoApp.new st)))).
  { unfold held. destruct (new_fields st) as (_ & _ & _ & -> & _).
    now rewrite app_nil_r. }
  destruct (session_keeps_reload actions _ s' st st' Fh eq_refl F H)
    as [Ht Hf].
  destruct (new_fields st') as (_ & _ & Hq & Hd & _). auto.
Qed.

Lemma reload_restores_the_collection_witness :
  let st : Storage := fun _ => ItemNull in
  let actions :=
    [HandleAddTodo "a" 1700000000000 1 "d1";
     HandleAddTodo "b" 1700000001000 2 "d2";
     ToggleTodo 1700000000001; SetFilter "active";
     DeleteTodo 1700000001002 1700000002000] in
  exists s' st',
    session false actions (fst (TodoApp.new st)) st = Some (s', st')
    /\ todos (fst (TodoApp.new st')) = todos s'
    /\ filter (fst (TodoApp.new st')) = "active"
    /\ deletedTodo s' = Some (mkTodo 1700000001002 "b" false "d2")
    /\ deletedTodo (fst (TodoApp.new st')) = None.
Proof.
  intros st actions.
  destruct (session false actions (fst (TodoApp.new st)) st)
    as [[s' st']|] eqn:E; [|vm_compute in E; discriminate E].
  exists s', st'. split; [reflexivity|].
  assert (Fin : finiteIds (todos (fst (TodoApp.new st)))) by constructor.
  pose proof (reload_restores_the_collection st st' actions s' Fin E)
    as (Ht & Hf & _ & Hd).
  vm_compute in E. injection E as Es Est. subst s'.
  split; [exact Ht|]. split; [exact Hf|]. split; [reflexivity|exact Hd].
Defined.

End ReloadFacts.

(* ================================================================== *)
(** ** Starting from storage, and the theme *)

Section StartFacts.
Import StorageManager.

(** X23.  A payload that [validateTodos] accepts is taken whole: the collection
    of the new application has one task for each element of the stored
    array, in the order of the array, with the four fields of the
    element. *)
Theorem load_valid_payload_is_taken_whole (st : Storage) (items : list JSON) :
  st APP_CONFIG.STORAGE_KEY = ItemValue (JArray items) ->
  validateTodos (JArray items) = true ->
  Forall2
    (fun v t =>
       getProp v "id" = Some (JNumber (id t))
       /\ getProp v "text" = Some (JString (text t))
       /\ getProp v "completed" = Some (JBool (completed t))
       /\ getProp v "createdAt" = Some (JString (createdAt t)))
    items (TodoApp.todos (fst (TodoApp.new st))).
Proof.
  intros Hst Hv. destruct (new_fields st) as (Ht & _). rewrite Ht.
  unfold load. rewrite Hst. simpl in Hv. rewrite Hv. clear Ht Hst.
  induction items as [|v r IH]; [constructor|].
  cbn [forallb] in Hv. apply andb_true_iff in Hv. destruct Hv as [Hv Hr].
  apply validTodo_true_iff in Hv.
  destruct Hv as (props & i & t & c & d & -> & H1 & H2 & H3 & H4).
  cbn [asTodos]. unfold asTodo. cbn [getProp].
  rewrite H1, H2, H3, H4. constructor; [|now apply IH].
  cbn. auto.
Qed.

Lemma load_valid_payload_is_taken_whole_witness :
  let first := JObject [("id", JNumber 7); ("text", JString "a");
                        ("completed", JBool true); ("createdAt", JString "d");
                        ("note", JNull)] in
  let second := JObject [("createdAt", JString "e"); ("id", JNumber 3);
                         ("completed", JBool false); ("text", JString "b")] in
  let st := fun k => if (k =? "todos")%string
                     then ItemValue (JArray [first; second]) else ItemThrows in
  TodoApp.todos (fst (TodoApp.new st))
  = [mkTodo 7 "a" true "d"; mkTodo 3 "b" false "e"]
  /\ List.length (TodoApp.todos (fst (TodoApp.new st))) = 2%nat.
Proof.
  intros first second st. split; [reflexivity|].
  pose proof (load_valid_payload_is_taken_whole st [first; second]
                eq_refl eq_refl) as H.
  apply Forall2_length in H. symmetry. exact H.
Defined.

(** X24.  With nothing readable under the two keys (no item, or an item that
    does not parse, or storage that throws), the application starts as
    the constructor leaves it - no task, filter [all] - and renders the
    empty list. *)
Theorem start_without_stored_items (st : Storage) :
  (forall v, st APP_CONFIG.STORAGE_KEY <> ItemValue v) ->
  (forall v, st APP_CONFIG.FILTER_KEY <> ItemValue v) ->
  TodoApp.new st = (TodoApp.constructor, [TodoApp.Render []]).
Proof.
  intros Ht Hf.
  unfold TodoApp.new, TodoApp.loadFromStorage, TodoApp.bind, load.
  destruct (st APP_CONFIG.STORAGE_KEY) as [| |v] eqn:E1;
    [| |exfalso; now apply (Ht v)];
    destruct (st APP_CONFIG.FILTER_KEY) as [| |w] eqn:E2;
    try (exfalso; now apply (Hf w)); reflexivity.
Qed.

Lemma start_without_stored_items_witness :
  TodoApp.new (fun k => if (k =? "todos")%string then ItemThrows else ItemNull)
  = (TodoApp.constructor, [TodoApp.Render []]).
Proof.
  apply start_without_stored_items.
  - intros v E. cbn in E. discriminate E.
  - intros v E. cbn in E. discriminate E.
Defined.

(** X25.  [clearAll], when the three removals go through, reports success
    and leaves a storage on which the application starts empty with
    filter [all] and the theme follows the system.  When a removal throws
    it reports failure with the removals before it made: nothing is
    removed when the first throws; when a later one throws the tasks are
    gone already, so that the application starts with no task, but with
    the filter that was stored.  Items under other keys stay in every
    case. *)
Theorem clearAll_resets_the_application (st : Storage) (os : option bool) :
  let st' := fst (clearAll None st) in
  snd (clearAll None st) = true
  /\ TodoApp.new st' = (TodoApp.constructor, [TodoApp.Render []])
  /\ ThemeManager.init st' os
     = ThemeManager.mkTheme (ThemeManager.getOSPreference os)
  /\ clearAll (Some 0%nat) st = (st, false)
  /\ (forall n, (1 <= n < 3)%nat ->
      let st1 := fst (clearAll (Some n) st) in
      snd (clearAll (Some n) st) = false
      /\ TodoApp.todos (fst (TodoApp.new st1)) = []
      /\ TodoApp.filter (fst (TodoApp.new st1))
         = TodoApp.filter (fst (TodoApp.new st)))
  /\ ThemeManager.init (fst (clearAll (Some 1%nat) st)) os
     = ThemeManager.init st os
  /\ (forall throwsAt k,
        k <> APP_CONFIG.STORAGE_KEY -> k <> APP_CONFIG.DARK_MODE_KEY ->
        k <> APP_CONFIG.FILTER_KEY -> fst (clearAll throwsAt st) k = st k).
Proof.
  intros st'. split; [reflexivity|]. split; [reflexivity|].
  split; [reflexivity|]. split; [reflexivity|].
  split; [|split; [reflexivity|]].
  - intros n Hn st1.
    assert (E : n = 1%nat \/ n = 2%nat) by lia.
    destruct (new_fields st1) as (Ht & Hf & _).
    destruct (new_fields st) as (_ & Hf' & _).
    rewrite Ht, Hf, Hf'. unfold st1.
    destruct E as [-> | ->]; (split; [reflexivity|split; reflexivity]).
  - intros throwsAt k H1 H2 H3.
    assert (R : forall st0 key, k <> key -> removeItem st0 key k = st0 k).
    { intros st0 key Hk. unfold removeItem.
      destruct (String.eqb_spec k key); [contradiction|reflexivity]. }
    destruct throwsAt as [[|[|[|n]]]|]; cbn [clearAll fst];
      rewrite ?R by assumption; reflexivity.
Qed.

Lemma clearAll_resets_the_application_witness :
  let task := JObject [("id", JNumber 7); ("text", JString "a");
                       ("completed", JBool false); ("createdAt", JString "d")] in
  let st : Storage :=
    fun k => if (k =? "todos")%string then ItemValue (JArray [task])
             else if (k =? "filter")%string then ItemValue (JString "active")
             else ItemNull in
  let st1 := fst (clearAll (Some 2%nat) st) in
  TodoApp.todos (fst (TodoApp.new st)) = [mkTodo 7 "a" false "d"]
  /\ snd (clearAll (Some 2%nat) st) = false
  /\ TodoApp.todos (fst (TodoApp.new st1)) = []
  /\ TodoApp.filter (fst (TodoApp.new st1)) = "active".
Proof.
  intros task st st1. split; [reflexivity|].
  destruct (clearAll_resets_the_application st None)
    as (_ & _ & _ & _ & H & _).
  assert (Hn : (1 <= 2 < 3)%nat) by lia.
  destruct (H 2%nat Hn) as (H1 & H2 & H3).
  split; [exact H1|]. split; [exact H2|]. exact H3.
Defined.

(** X26.  [toggle] negates the theme that is applied and returns the new
    preference.  When the write goes through, a theme manager started
    later on that storage has this preference, whatever the system
    prefers, and a change of the system preference does not touch it; a
    second toggle brings the applied theme back. *)
Theorem theme_toggle_is_remembered
  (s : ThemeManager.State) (st : Storage) (os : option bool) (matches : bool) :
  let r := ThemeManager.toggle false s st in
  let s1 := fst (fst r) in
  let st1 := snd (fst r) in
  ThemeManager.applyTheme s1 = negb (ThemeManager.applyTheme s)
  /\ snd r = ThemeManager.isDarkMode s1
  /\ ThemeManager.init st1 os = s1
  /\ ThemeManager.osChanged matches s1 st1 = s1
  /\ ThemeManager.applyTheme (fst (fst (ThemeManager.toggle false s1 st1)))
     = ThemeManager.applyTheme s.
Proof.
  cbn. repeat split. apply negb_involutive.
Qed.

(** X27.  When the write of [toggle] fails and no preference is stored, the
    theme still changes on the page, but a theme manager started later
    follows the system again: the choice is not remembered. *)
Theorem theme_toggle_unsaved_is_forgotten
  (s : ThemeManager.State) (st : Storage) (os : option bool) :
  load st APP_CONFIG.DARK_MODE_KEY JNull = JNull ->
  let r := ThemeManager.toggle true s st in
  ThemeManager.applyTheme (fst (fst r)) = negb (ThemeManager.applyTheme s)
  /\ ThemeManager.init (snd (fst r)) os
     = ThemeManager.mkTheme (ThemeManager.getOSPreference os).
Proof.
  intros H r. split; [reflexivity|].
  unfold r, ThemeManager.toggle, ThemeManager.init, save. cbn [fst snd].
  now rewrite H.
Qed.

Lemma theme_toggle_unsaved_is_forgotten_witness :
  let st : Storage := fun _ => ItemNull in
  let r := ThemeManager.toggle true (ThemeManager.init st (Some false)) st in
  ThemeManager.applyTheme (fst (fst r)) = true
  /\ ThemeManager.applyTheme (ThemeManager.init (snd (fst r)) (Some false))
     = false.
Proof.
  intros st r.
  destruct (theme_toggle_unsaved_is_forgotten
              (ThemeManager.init st (Some false)) st (Some false) eq_refl)
    as [H1 H2].
  split; [exact H1|]. fold r in H2. rewrite H2. reflexivity.
Defined.

End StartFacts.
